(** * TandoorImporter: the recipe transform and the import routine

    A shallow embedding of [tandoor_import.py].  The script reads JSON
    documents, maps them into the payload of the Tandoor recipe API and
    submits them.  Python values are dynamically typed, so the embedding
    works on a universe of JSON values, and every operation that Python
    can refuse (subscripting, attribute lookup, iteration) returns a
    [result].  Calls that leave the process (HTTP, the file system,
    standard output, the clock) are recorded in a trace and answered by
    a [World]. *)

From Stdlib Require Import ZArith NArith String Ascii List Bool Lia.
From Stdlib Require Import DecimalString.
From Stdlib Require Import Floats.PrimFloat.
Import ListNotations.

(** ** Python strings *)

Module PyStr.

(** A [str] is a sequence of Unicode code points. *)
Definition char := N.
Definition str := list char.

(** The code points of an ASCII literal of the source. *)
Definition lit (s : string) : str :=
  map N_of_ascii (list_ascii_of_string s).

Definition eqb (a b : str) : bool :=
  if list_eq_dec N.eq_dec a b then true else false.

(** [Py_UNICODE_ISSPACE]: the characters [str.strip()] removes. *)
Definition is_space (c : char) : bool :=
  ((9 <=? c) && (c <=? 13) || (28 <=? c) && (c <=? 32)
   || (c =? 133) || (c =? 160) || (c =? 5760)
   || (8192 <=? c) && (c <=? 8202)
   || (c =? 8232) || (c =? 8233) || (c =? 8239) || (c =? 8287)
   || (c =? 12288))%N.

Fixpoint lstrip (s : str) : str :=
  match s with
  | [] => []
  | c :: r => if is_space c then lstrip r else s
  end.

Definition rstrip (s : str) : str := rev (lstrip (rev s)).

(** [s.strip()] *)
Definition strip (s : str) : str := rstrip (lstrip s).

(** [s] begins with [p]; the remainder is returned. *)
Fixpoint strip_prefix (p s : str) : option str :=
  match p, s with
  | [], _ => Some s
  | _ :: _, [] => None
  | a :: p', b :: s' => if N.eqb a b then strip_prefix p' s' else None
  end.

(** [s.split(sep)] for a non-empty [sep]: the occurrences of [sep] are
    found from the left and do not overlap.  [skip] counts the
    characters of a found separator still to be passed over and [cur]
    holds the current piece, reversed. *)
Fixpoint split_go (sep : str) (skip : nat) (cur s : str) : list str :=
  match s with
  | [] => [rev cur]
  | c :: r =>
      match skip with
      | S k => split_go sep k cur r
      | O =>
          match strip_prefix sep s with
          | Some _ => rev cur :: split_go sep (List.length sep - 1) [] r
          | None => split_go sep 0 (c :: cur) r
          end
      end
  end.

Definition split (sep s : str) : list str := split_go sep 0 [] s.

(** [sep.join(pieces)] *)
Fixpoint join (sep : str) (pieces : list str) : str :=
  match pieces with
  | [] => []
  | [p] => p
  | p :: ps => p ++ sep ++ join sep ps
  end.

(** [s.replace(old, new)] for a non-empty [old]. *)
Definition replace (old new s : str) : str := join new (split old s).

(** The characters of [s], as Python iterates a string. *)
Definition chars (s : str) : list str := map (fun c => [c]) s.

(** [str(n)] of an integer: its decimal digits, with a sign when
    negative. *)
Definition of_Z (z : Z) : str := lit (NilZero.string_of_int (Z.to_int z)).

(** A string that holds nothing but whitespace (the empty one too). *)
Definition blank (s : str) : bool := forallb is_space s.

End PyStr.

Import PyStr.

(** ** JSON values, as [json.loads] builds them

    A dictionary keeps its entries in insertion order; [lookup] takes
    the first entry of a key. *)

#[warnings="-register-all"]
Inductive json : Type :=
| JNone
| JBool (b : bool)
| JInt (z : Z)
| JFloat (f : float)
| JStr (s : str)
| JList (l : list json)
| JDict (d : list (str * json)).

(** ** Exceptions and fallible evaluation *)

(** The exceptions the script can meet.  [KeyError], [TypeError] and
    [AttributeError] come from the interpreter; [OtherError] stands for
    any other subclass of [Exception], raised inside [requests], [json]
    or the file system, or by the script with [raise Exception(msg)]. *)
Inductive exn : Type :=
| KeyError (key : str)
| TypeError
| AttributeError (attr : str)
| OtherError (cls msg : str).

Inductive result (A : Type) : Type :=
| Ok (a : A)
| Raise (e : exn).

Arguments Ok {A} a.
Arguments Raise {A} e.

Definition rbind {A B} (m : result A) (k : A -> result B) : result B :=
  match m with
  | Ok a => k a
  | Raise e => Raise e
  end.

Declare Scope py_scope.
Delimit Scope py_scope with py.
Notation "x <- m ;; k" := (rbind m (fun x => k))
  (at level 61, m at next level, right associativity) : py_scope.
Local Open Scope py_scope.

Definition is_ok {A} (m : result A) : bool :=
  match m with Ok _ => true | Raise _ => false end.

(** A [for] loop over [l] that threads the variables [s] it updates. *)
Fixpoint for_ {A S} (l : list A) (body : S -> A -> result S) (s : S)
  : result S :=
  match l with
  | [] => Ok s
  | x :: r => s' <- body s x ;; for_ r body s'
  end.

(** A list comprehension [[f x for x in l if cond x]]. *)
Fixpoint comprehension {A B} (l : list A) (cond : A -> result bool)
    (f : A -> B) : result (list B) :=
  match l with
  | [] => Ok []
  | x :: r =>
      keep <- cond x ;;
      rest <- comprehension r cond f ;;
      Ok (if keep then f x :: rest else rest)
  end.

(** ** The operations of Python the script applies to JSON values *)

Fixpoint lookup (k : str) (d : list (str * json)) : option json :=
  match d with
  | [] => None
  | (k', v) :: r => if PyStr.eqb k k' then Some v else lookup k r
  end.

Definition nonempty {A} (l : list A) : bool :=
  match l with [] => false | _ :: _ => true end.

(** [bool(v)] *)
Definition truthy (v : json) : bool :=
  match v with
  | JNone => false
  | JBool b => b
  | JInt z => negb (z =? 0)%Z
  | JFloat f => negb (PrimFloat.eqb f 0%float)
  | JStr s => nonempty s
  | JList l => nonempty l
  | JDict d => nonempty d
  end.

(** [v != 0] *)
Definition ne_zero (v : json) : bool :=
  match v with
  | JBool b => b
  | JInt z => negb (z =? 0)%Z
  | JFloat f => negb (PrimFloat.eqb f 0%float)
  | _ => true
  end.

(** [v[k]] for a string key *)
Definition getitem (v : json) (k : str) : result json :=
  match v with
  | JDict d =>
      match lookup k d with
      | Some x => Ok x
      | None => Raise (KeyError k)
      end
  | _ => Raise TypeError
  end.

(** [v.get(k, default)] *)
Definition get (v : json) (k : str) (default : json) : result json :=
  match v with
  | JDict d =>
      Ok (match lookup k d with Some x => x | None => default end)
  | _ => Raise (AttributeError (lit "get"))
  end.

(** The values a [for] loop over [v] visits. *)
Definition iter (v : json) : result (list json) :=
  match v with
  | JList l => Ok l
  | JDict d => Ok (map (fun kv => JStr (fst kv)) d)
  | JStr s => Ok (map JStr (chars s))
  | _ => Raise TypeError
  end.

(** [v.split(sep)], [v.strip()] and [v.replace(old, new)] exist on
    strings only. *)
Definition py_split (v : json) (sep : str) : result (list str) :=
  match v with
  | JStr s => Ok (split sep s)
  | _ => Raise (AttributeError (lit "split"))
  end.

Definition py_strip (v : json) : result str :=
  match v with
  | JStr s => Ok (strip s)
  | _ => Raise (AttributeError (lit "strip"))
  end.

Definition py_replace (v : json) (old new : str) : result str :=
  match v with
  | JStr s => Ok (replace old new s)
  | _ => Raise (AttributeError (lit "replace"))
  end.

Definition CRLF : str := [13; 10]%N.

(** ** [_transform_recipe] *)

Section Transform.

(** [repr] of the values whose rendering CPython computes by an
    algorithm of its own: floats, lists and dictionaries. *)
Variable repr : json -> str.

(** [str(v)], also what an f-string puts in place of [{v}]. *)
Definition py_str (v : json) : str :=
  match v with
  | JNone => lit "None"
  | JBool true => lit "True"
  | JBool false => lit "False"
  | JInt z => of_Z z
  | JStr s => s
  | JFloat _ | JList _ | JDict _ => repr v
  end.

(** The dictionary appended to [ingredients] for one [ing]. *)
Definition ingredient_entry (ing : json) : result json :=
  name <- getitem ing (lit "name") ;;
  amount <- getitem ing (lit "amount") ;;
  unit <- getitem ing (lit "unit") ;;
  note <- get ing (lit "usageInfo") (JStr []) ;;
  Ok (JDict
        [ (lit "food", JDict [(lit "name", name)]);
          (lit "amount",
            JStr (if ne_zero amount then py_str amount else []));
          (lit "unit",
            if truthy unit then JDict [(lit "name", unit)] else JNone);
          (lit "note", note) ]).

(** Lines 27-36: the [ingredients] list. *)
Definition collect_ingredients (recipe_data : json) : result (list json) :=
  present <- get recipe_data (lit "ingredientGroups") JNone ;;
  if truthy present then
    groups_v <- getitem recipe_data (lit "ingredientGroups") ;;
    groups <- iter groups_v ;;
    for_ groups
      (fun ingredients group =>
         ings_v <- getitem group (lit "ingredients") ;;
         ings <- iter ings_v ;;
         for_ ings
           (fun ingredients ing =>
              entry <- ingredient_entry ing ;;
              Ok (ingredients ++ [entry]))
           ingredients)
      []
  else Ok [].

(** Lines 39-40: the [steps] list. *)
Definition make_step (step : str) : json :=
  JDict [ (lit "instruction", JStr (strip step));
          (lit "ingredients", JList []) ].

Definition collect_steps (recipe_data : json) : result (list json) :=
  instr_v <- get recipe_data (lit "instructions") (JStr []) ;;
  instructions <- py_split instr_v (CRLF ++ CRLF) ;;
  Ok (map make_step
        (filter (fun step => nonempty (strip step)) instructions)).

(** Lines 43-44: the [keywords] list. *)
Definition keep_tag (tag : json) : result bool :=
  if truthy tag then
    stripped <- py_strip tag ;;
    Ok (nonempty stripped)
  else Ok false.

Definition make_keyword (tag : json) : json := JDict [(lit "name", tag)].

Definition collect_keywords (recipe_data : json) : result (list json) :=
  tags_v <- get recipe_data (lit "tags") (JList []) ;;
  tags <- iter tags_v ;;
  keywords <- comprehension tags keep_tag make_keyword ;;
  Ok (keywords ++ [make_keyword (JStr (lit "pyimport"))]).

(** Lines 46-55: the returned dictionary.  [ingredients] is not among
    its arguments. *)
Definition build_payload (recipe_data : json) (keywords steps : list json)
  : result json :=
  name <- getitem recipe_data (lit "title") ;;
  description <- get recipe_data (lit "additionalDescription") (JStr []) ;;
  working_time <- get recipe_data (lit "preparationTime") (JInt 0) ;;
  source_url <- get recipe_data (lit "siteUrl") (JStr []) ;;
  servings <- get recipe_data (lit "servings") (JInt 0) ;;
  Ok (JDict
        [ (lit "name", name);
          (lit "description", description);
          (lit "keywords", JList keywords);
          (lit "steps", JList steps);
          (lit "working_time", working_time);
          (lit "source_url", source_url);
          (lit "servings", servings);
          (lit "private", JBool false) ]).

(** [TandoorRecipeImporter._transform_recipe] *)
Definition _transform_recipe (recipe_data : json) : result json :=
  ingredients <- collect_ingredients recipe_data ;;
  steps <- collect_steps recipe_data ;;
  keywords <- collect_keywords recipe_data ;;
  build_payload recipe_data keywords steps.

End Transform.

(** ** The outside world *)

(** What the script reads of a [requests.Response]. *)
Record response : Type := {
  status_code : Z;
  text : str;
  content : list N;
  json_body : result json   (* [response.json()] *)
}.

(** One member of the [files] dictionary of a multipart upload: the
    tuple [(filename, data, content_type)] or [(None, value)]. *)
Inductive part : Type :=
| FilePart (filename : str) (data : list N) (content_type : str)
| FieldPart (value : str).

Definition headers := list (str * str).

(** The calls that leave the process, in the order they are made. *)
Inductive event : Type :=
| RequestsPost (url : str) (data : list (str * str))
| SessionPost (url : str) (hdrs : headers) (body : json)
| RequestsGet (url : str)
| SessionPut (url : str) (hdrs : headers) (files : list (str * part))
| ReadLines (path : str)
| Print (line : str)
| Sleep (seconds : Z).

(** The answers of the world.  Each may depend on everything that
    happened before the call, and each may raise. *)
Record World : Type := {
  requests_post : list event -> str -> list (str * str) -> result response;
  session_post : list event -> str -> headers -> json -> result response;
  requests_get : list event -> str -> result response;
  session_put :
    list event -> str -> headers -> list (str * part) -> result response;
  readlines : list event -> str -> result (list str)
}.

(** A computation with effects: it extends the trace and returns a value
    or raises. *)
Definition io (A : Type) : Type := list event -> list event * result A.

Definition ret {A} (a : A) : io A := fun h => (h, Ok a).

Definition raise {A} (e : exn) : io A := fun h => (h, Raise e).

Definition bind {A B} (m : io A) (k : A -> io B) : io B :=
  fun h =>
    match m h with
    | (h', Ok a) => k a h'
    | (h', Raise e) => (h', Raise e)
    end.

(** An evaluation without effects inside an effectful routine. *)
Definition lift {A} (r : result A) : io A := fun h => (h, r).

(** [try: body / except Exception as e: handler e] *)
Definition try_except {A} (body : io A) (handler : exn -> io A) : io A :=
  fun h =>
    match body h with
    | (h', Ok a) => (h', Ok a)
    | (h', Raise e) => handler e h'
    end.

(** A call to the world: recorded, then answered from what came
    before it. *)
Definition call {A} (e : event) (answer : list event -> result A) : io A :=
  fun h => (h ++ [e], answer h).

Definition print (line : str) : io unit := fun h => (h ++ [Print line], Ok tt).

Definition sleep (seconds : Z) : io unit :=
  fun h => (h ++ [Sleep seconds], Ok tt).

Declare Scope io_scope.
Delimit Scope io_scope with io.
Notation "x <- m ;; k" := (bind m (fun x => k))
  (at level 61, m at next level, right associativity) : io_scope.
Notation "m ;; k" := (bind m (fun _ => k))
  (at level 61, right associativity) : io_scope.

(** A [for] loop whose body has effects only. *)
Fixpoint for_io {A} (l : list A) (body : A -> io unit) : io unit :=
  match l with
  | [] => ret tt
  | x :: r => (body x ;; for_io r body)%io
  end.

(** ** The importer *)

(** The attributes of a [TandoorRecipeImporter]. *)
Record Importer : Type := {
  base_url : str;
  auth_token : json;
  headers_ : headers
}.

Section ImportRoutine.

Variable repr : json -> str.

(** [str(e)] of a caught exception. *)
Variable exn_str : exn -> str.

Variable world : World.

Local Open Scope io_scope.

Local Abbreviation str_ := (py_str repr).

(** [TandoorRecipeImporter._get_auth_token] *)
Definition _get_auth_token (base : str) (username password : str)
  : io json :=
  let auth_url := base ++ lit "/api-token-auth/" in
  let data := [(lit "username", username); (lit "password", password)] in
  response <- call (RequestsPost auth_url data)
                (fun h => requests_post world h auth_url data) ;;
  if (status_code response =? 200)%Z then
    body <- lift (json_body response) ;;
    lift (getitem body (lit "token"))
  else
    raise (OtherError (lit "Exception")
             (lit "Authentication failed: " ++ text response)).

(** [TandoorRecipeImporter.__init__] *)
Definition init (username password base : str) : io Importer :=
  token <- _get_auth_token base username password ;;
  ret {| base_url := base;
         auth_token := token;
         headers_ :=
           [ (lit "Authorization", lit "Bearer " ++ str_ token);
             (lit "Content-Type", lit "application/json") ] |}.

(** Lines 78-100: the body of the inner [try]. *)
Definition attach_image (self : Importer) (recipe_json recipe_id : json)
  : io unit :=
  template <- lift (getitem recipe_json (lit "previewImageUrlTemplate")) ;;
  image_url <- lift (py_replace template (lit "<format>")
                       (lit "crop-642x428")) ;;
  image_response <- call (RequestsGet image_url)
                      (fun h => requests_get world h image_url) ;;
  if (status_code image_response =? 200)%Z then
    let files :=
      [ (lit "image",
          FilePart (lit "image.jpg") (content image_response)
            (lit "image/jpeg"));
        (lit "image_url", FieldPart image_url) ] in
    let url :=
      base_url self ++ lit "/api/recipe/" ++ str_ recipe_id
        ++ lit "/image/" in
    let hdrs :=
      [(lit "Authorization", lit "Token " ++ str_ (auth_token self))] in
    image_upload_response <-
      call (SessionPut url hdrs files)
        (fun h => session_put world h url hdrs files) ;;
    if negb (status_code image_upload_response =? 200)%Z then
      title <- lift (getitem recipe_json (lit "title")) ;;
      print (lit "Error adding image for " ++ str_ title)
    else ret tt
  else
    title <- lift (getitem recipe_json (lit "title")) ;;
    print (lit "Error downloading image for " ++ str_ title).

(** Lines 77-103: the image step, with its own handler. *)
Definition add_image (self : Importer) (recipe_json recipe_id : json)
  : io unit :=
  template <- lift (get recipe_json (lit "previewImageUrlTemplate") JNone) ;;
  if truthy template then
    try_except (attach_image self recipe_json recipe_id)
      (fun e =>
         title <- lift (getitem recipe_json (lit "title")) ;;
         print (lit "Error during image upload for " ++ str_ title
                  ++ lit ": " ++ exn_str e))
  else ret tt.

(** Lines 60-106: the body of the outer [try]. *)
Definition import_body (self : Importer) (recipe_json : json) : io unit :=
  tandoor_recipe <- lift (_transform_recipe repr recipe_json) ;;
  let url := base_url self ++ lit "/api/recipe/" in
  response <- call (SessionPost url (headers_ self) tandoor_recipe)
                (fun h =>
                   session_post world h url (headers_ self) tandoor_recipe) ;;
  if negb (status_code response =? 201)%Z then
    title <- lift (getitem recipe_json (lit "title")) ;;
    print (lit "Error creating recipe " ++ str_ title ++ lit ": "
             ++ text response)
  else
    body <- lift (json_body response) ;;
    recipe_id <- lift (getitem body (lit "id")) ;;
    add_image self recipe_json recipe_id ;;
    title <- lift (getitem recipe_json (lit "title")) ;;
    print (lit "Recipe '" ++ str_ title ++ lit "' successfully imported") ;;
    sleep 1.

(** [TandoorRecipeImporter.import_recipe] *)
Definition import_recipe (self : Importer) (recipe_json : json) : io unit :=
  try_except (import_body self recipe_json)
    (fun e =>
       title <- lift (get recipe_json (lit "title") (JStr (lit "unknown"))) ;;
       print (lit "Error importing " ++ str_ title ++ lit ": " ++ exn_str e)).

(** Lines 124-135: one iteration of the loop of [main]. *)
Definition process_url (importer : Importer) (line : str) : io unit :=
  let url := strip line in
  try_except
    (response <- call (RequestsGet url)
                   (fun h => requests_get world h url) ;;
     recipe_data <- lift (json_body response) ;;
     import_recipe importer recipe_data)
    (fun e =>
       print (lit "Error processing URL " ++ url ++ lit ": " ++ exn_str e)).

(** [main] *)
Definition main : io unit :=
  let username := lit "YOUR_USERNAME" in
  let password := lit "YOUR_PASSWORD" in
  importer <- init username password (lit "https://tandoor.your.domain") ;;
  urls <- call (ReadLines (lit "recipe_urls.txt"))
            (fun h => readlines world h (lit "recipe_urls.txt")) ;;
  for_io urls (process_url importer).

End ImportRoutine.

(** ** Vocabulary of the properties *)

Fixpoint mapM {A B} (f : A -> result B) (l : list A) : result (list B) :=
  match l with
  | [] => Ok []
  | x :: r => y <- f x ;; ys <- mapM f r ;; Ok (y :: ys)
  end.

(** A dictionary with the entries of one key taken out. *)
Definition without (k : str) (d : list (str * json)) : list (str * json) :=
  filter (fun kv => negb (PyStr.eqb k (fst kv))) d.

Definition has_key (k : str) (d : list (str * json)) : bool :=
  match lookup k d with Some _ => true | None => false end.

(** The ingredients of a source recipe in document order: those of the
    first group, then those of the second, and so on. *)
Definition group_ingredients (group : json) : result (list json) :=
  ings_v <- getitem group (lit "ingredients") ;; iter ings_v.

Definition source_ingredients (recipe_data : json) : result (list json) :=
  present <- get recipe_data (lit "ingredientGroups") JNone ;;
  if truthy present then
    groups <- iter present ;;
    per_group <- mapM group_ingredients groups ;;
    Ok (concat per_group)
  else Ok [].

(** The tags that become keywords: strings that are not blank. *)
Definition kept_tag (tag : json) : bool :=
  match tag with
  | JStr s => negb (blank s)
  | _ => false
  end.

Definition pyimport_keyword : json :=
  JDict [(lit "name", JStr (lit "pyimport"))].

Definition is_pyimport (v : json) : bool :=
  match v with
  | JStr s => PyStr.eqb s (lit "pyimport")
  | _ => false
  end.

Definition is_pyimport_keyword (v : json) : bool :=
  match v with
  | JDict [(k, name)] => PyStr.eqb k (lit "name") && is_pyimport name
  | _ => false
  end.

Definition count_pyimport (keywords : list json) : nat :=
  List.length (filter is_pyimport_keyword keywords).

(** The shape of the optional fields that [_transform_recipe] walks
    through. *)
Definition iterable_all (p : json -> bool) (v : json) : bool :=
  match iter v with
  | Ok l => forallb p l
  | Raise _ => false
  end.

Definition ingredient_ok (ing : json) : bool :=
  match ing with
  | JDict d =>
      has_key (lit "name") d && has_key (lit "amount") d
      && has_key (lit "unit") d
  | _ => false
  end.

Definition group_ok (group : json) : bool :=
  match getitem group (lit "ingredients") with
  | Ok ings_v => iterable_all ingredient_ok ings_v
  | Raise _ => false
  end.

Definition groups_ok (d : list (str * json)) : bool :=
  match lookup (lit "ingredientGroups") d with
  | None => true
  | Some v => negb (truthy v) || iterable_all group_ok v
  end.

Definition instructions_ok (d : list (str * json)) : bool :=
  match lookup (lit "instructions") d with
  | None | Some (JStr _) => true
  | Some _ => false
  end.

Definition tag_ok (tag : json) : bool :=
  match tag with
  | JStr _ => true
  | _ => negb (truthy tag)
  end.

Definition tags_ok (d : list (str * json)) : bool :=
  match lookup (lit "tags") d with
  | None => true
  | Some v => iterable_all tag_ok v
  end.

Definition well_shaped (d : list (str * json)) : bool :=
  groups_ok d && instructions_ok d && tags_ok d.

(** The entries one group contributes to [ingredients]. *)
Definition group_entries (repr : json -> str) (group : json)
  : result (list json) :=
  ings_v <- getitem group (lit "ingredients") ;;
  ings <- iter ings_v ;;
  mapM (ingredient_entry repr) ings.

(** How the [amount] of a source ingredient shows in its entry. *)
Definition amount_rendered (repr : json -> str) (ing entry : json) : Prop :=
  exists amount field,
    getitem ing (lit "amount") = Ok amount /\
    getitem entry (lit "amount") = Ok field /\
    (ne_zero amount = false -> field = JStr [] /\ field <> JStr (lit "0")) /\
    (ne_zero amount = true -> field = JStr (py_str repr amount)) /\
    (forall z, amount = JInt z -> z <> 0%Z -> field = JStr (of_Z z)).

(** The value [d.get(k, default)] reads. *)
Definition get_or (k : str) (default : json) (d : list (str * json)) : json :=
  match lookup k d with Some v => v | None => default end.

(** ** Sample data *)

Definition no_repr (v : json) : str := [].

Definition exn_name (e : exn) : str :=
  match e with
  | KeyError k => lit "'" ++ k ++ lit "'"
  | TypeError => lit "TypeError"
  | AttributeError a => lit "no attribute '" ++ a ++ lit "'"
  | OtherError _ msg => msg
  end.

(** The recipe of the scenario of the specification. *)
Definition soup : json :=
  JDict
    [ (lit "title", JStr (lit "Soup"));
      (lit "instructions",
        JStr (lit "Boil water." ++ CRLF ++ CRLF ++ lit "Add salt."));
      (lit "tags", JList [JStr (lit "quick"); JStr []; JStr (lit " ")]);
      (lit "preparationTime", JInt 10);
      (lit "servings", JInt 4) ].

(** A recipe with two ingredient groups, an amount of zero, padded tags
    and a preview image. *)
Definition stew : json :=
  JDict
    [ (lit "title", JStr (lit "Stew"));
      (lit "ingredientGroups",
        JList
          [ JDict
              [ (lit "ingredients",
                  JList
                    [ JDict [ (lit "name", JStr (lit "Salt"));
                              (lit "amount", JInt 0);
                              (lit "unit", JStr []) ];
                      JDict [ (lit "name", JStr (lit "Beef"));
                              (lit "amount", JInt 500);
                              (lit "unit", JStr (lit "g"));
                              (lit "usageInfo", JStr (lit "diced")) ] ]) ];
            JDict
              [ (lit "ingredients",
                  JList
                    [ JDict [ (lit "name", JStr (lit "Stock"));
                              (lit "amount", JInt (-1));
                              (lit "unit", JStr (lit "l")) ] ]) ] ]);
      (lit "instructions",
        JStr (lit "Brown the beef." ++ CRLF ++ CRLF ++ lit "  " ++ CRLF
                ++ CRLF ++ lit "Simmer."));
      (lit "tags", JList [JStr (lit " slow "); JStr (lit "pyimport")]);
      (lit "previewImageUrlTemplate",
        JStr (lit "https://img.example/<format>/stew.jpg")) ].

(** A recipe whose only ingredient has no [unit]. *)
Definition unitless : json :=
  JDict
    [ (lit "title", JStr (lit "Toast"));
      (lit "ingredientGroups",
        JList
          [ JDict
              [ (lit "ingredients",
                  JList
                    [ JDict [ (lit "name", JStr (lit "Bread"));
                              (lit "amount", JInt 2) ] ]) ] ]) ].

(** What the transform returns for the samples. *)
Definition soup_payload : json :=
  Eval vm_compute in
    match _transform_recipe no_repr soup with
    | Ok payload => payload
    | Raise _ => JNone
    end.

Definition stew_payload : json :=
  Eval vm_compute in
    match _transform_recipe no_repr stew with
    | Ok payload => payload
    | Raise _ => JNone
    end.

Definition stew_entries : list json :=
  Eval vm_compute in
    match collect_ingredients no_repr stew with
    | Ok entries => entries
    | Raise _ => []
    end.

(** ** The batch loop, as a relation on traces *)

Section Batch.

Variable repr : json -> str.
Variable exn_str : exn -> str.
Variable world : World.
Variable importer : Importer.

Definition url_error (url : str) (e : exn) : event :=
  Print (lit "Error processing URL " ++ url ++ lit ": " ++ exn_str e).

(** What one line of the URL file adds to the trace [h]: a GET of the
    stripped line, and then either the log of a failed fetch or parse,
    or what [import_recipe] does with the parsed document (and the log
    of an exception that left it). *)
Inductive url_step (h : list event) (line : str) : list event -> Prop :=
| fetch_failed (e : exn) :
    requests_get world h (strip line) = Raise e ->
    url_step h line
      (h ++ [RequestsGet (strip line); url_error (strip line) e])
| parse_failed (response : response) (e : exn) :
    requests_get world h (strip line) = Ok response ->
    json_body response = Raise e ->
    url_step h line
      (h ++ [RequestsGet (strip line); url_error (strip line) e])
| imported (response : response) (recipe_data : json) (rest : list event) :
    requests_get world h (strip line) = Ok response ->
    json_body response = Ok recipe_data ->
    import_recipe repr exn_str world importer recipe_data
      (h ++ [RequestsGet (strip line)])
    = (h ++ RequestsGet (strip line) :: rest, Ok tt) ->
    url_step h line (h ++ RequestsGet (strip line) :: rest)
| import_raised (response : response) (recipe_data : json)
    (rest : list event) (e : exn) :
    requests_get world h (strip line) = Ok response ->
    json_body response = Ok recipe_data ->
    import_recipe repr exn_str world importer recipe_data
      (h ++ [RequestsGet (strip line)])
    = (h ++ RequestsGet (strip line) :: rest, Raise e) ->
    url_step h line
      (h ++ RequestsGet (strip line) :: rest ++ [url_error (strip line) e]).

(** The lines are handled one after the other, none left out. *)
Inductive batch : list event -> list str -> list event -> Prop :=
| batch_done (h : list event) : batch h [] h
| batch_next (h h1 h2 : list event) (line : str) (lines : list str) :
    url_step h line h1 ->
    batch h1 lines h2 ->
    batch h (line :: lines) h2.

End Batch.

(** The endpoint a recipe is created at. *)
Definition creation_url (self : Importer) : str :=
  base_url self ++ lit "/api/recipe/".

(** The events of the image step. *)
Definition is_image_event (ev : event) : bool :=
  match ev with
  | RequestsGet _ | SessionPut _ _ _ => true
  | _ => false
  end.

(** A computation only ever adds to the trace. *)
Definition extends {A} (m : io A) : Prop :=
  forall h, exists t, fst (m h) = h ++ t.

(** ** Sample worlds *)

Definition demo_importer : Importer :=
  {| base_url := lit "https://tandoor.example";
     auth_token := JStr (lit "s3cret");
     headers_ :=
       [ (lit "Authorization", lit "Bearer s3cret");
         (lit "Content-Type", lit "application/json") ] |}.

Definition plain_response (status : Z) (body : json) : response :=
  {| status_code := status;
     text := lit "body";
     content := [];
     json_body := Ok body |}.

(** The target answers a creation with [status] and the identifier 42;
    every download is answered 404. *)
Definition demo_world (status : Z) : World :=
  {| requests_post := fun _ _ _ =>
       Ok (plain_response 200 (JDict [(lit "token", JStr (lit "s3cret"))]));
     session_post := fun _ _ _ _ =>
       Ok (plain_response status (JDict [(lit "id", JInt 42)]));
     requests_get := fun _ _ => Ok (plain_response 404 JNone);
     session_put := fun _ _ _ _ => Ok (plain_response 200 JNone);
     readlines := fun _ _ => Ok [] |}.

(** The target cannot be reached: every request raises. *)
Definition offline_world : World :=
  let refused := OtherError (lit "ConnectionError") (lit "refused") in
  {| requests_post := fun _ _ _ => Raise refused;
     session_post := fun _ _ _ _ => Raise refused;
     requests_get := fun _ _ => Raise refused;
     session_put := fun _ _ _ _ => Raise refused;
     readlines := fun _ _ => Ok [] |}.

(** A URL file of two lines, the second one blank.  The first URL serves
    [soup]; a GET of anything else raises, as [requests] does for a URL
    without a scheme. *)
Definition soup_url : str := lit "https://src.example/soup.json".

Definition file_world : World :=
  {| requests_post := fun _ _ _ =>
       Ok (plain_response 200 (JDict [(lit "token", JStr (lit "s3cret"))]));
     session_post := fun _ _ _ _ =>
       Ok (plain_response 201 (JDict [(lit "id", JInt 42)]));
     requests_get := fun _ url =>
       if PyStr.eqb url soup_url then Ok (plain_response 200 soup)
       else Raise (OtherError (lit "MissingSchema") (lit "Invalid URL"));
     session_put := fun _ _ _ _ => Ok (plain_response 200 JNone);
     readlines := fun _ _ => Ok [soup_url ++ [10%N]; [10%N]] |}.

(** ** Further vocabulary *)

(** A string that neither starts nor ends with whitespace. *)
Definition clean (s : str) : bool :=
  match s with
  | [] => true
  | c :: _ => negb (is_space c) && negb (is_space (last s c))
  end.

(** The keys of a source recipe that [_transform_recipe] reads. *)
Definition read_keys : list str :=
  [ lit "ingredientGroups"; lit "instructions"; lit "tags"; lit "title";
    lit "additionalDescription"; lit "preparationTime"; lit "siteUrl";
    lit "servings" ].

Definition reads (k : str) : bool := existsb (PyStr.eqb k) read_keys.

(** The request of [_get_auth_token]. *)
Definition auth_url (base : str) : str := base ++ lit "/api-token-auth/".

Definition auth_data (username password : str) : list (str * str) :=
  [(lit "username", username); (lit "password", password)].

(** The request of the image upload. *)
Definition upload_url (repr : json -> str) (self : Importer)
    (recipe_id : json) : str :=
  base_url self ++ lit "/api/recipe/" ++ py_str repr recipe_id
    ++ lit "/image/".

Definition upload_headers (repr : json -> str) (self : Importer) : headers :=
  [(lit "Authorization", lit "Token " ++ py_str repr (auth_token self))].

Definition upload_files (image_url : str) (image : list N)
  : list (str * part) :=
  [ (lit "image", FilePart (lit "image.jpg") image (lit "image/jpeg"));
    (lit "image_url", FieldPart image_url) ].

Definition image_url_of (template : str) : str :=
  replace (lit "<format>") (lit "crop-642x428") template.

(** The lines of the log. *)
Definition success_line (repr : json -> str) (title : json) : event :=
  Print (lit "Recipe '" ++ py_str repr title ++ lit "' successfully imported").

Definition import_error (repr : json -> str) (exn_str : exn -> str)
    (title : json) (e : exn) : event :=
  Print (lit "Error importing " ++ py_str repr title ++ lit ": "
           ++ exn_str e).

Definition image_error (repr : json -> str) (exn_str : exn -> str)
    (title : json) (e : exn) : event :=
  Print (lit "Error during image upload for " ++ py_str repr title
           ++ lit ": " ++ exn_str e).

(** What [import_recipe] added to the trace [h]. *)
Definition added (h : list event) (run : list event * result unit)
  : list event :=
  skipn (List.length h) (fst run).

Definition is_creation (ev : event) : bool :=
  match ev with SessionPost _ _ _ => true | _ => false end.

Definition is_download (ev : event) : bool :=
  match ev with RequestsGet _ => true | _ => false end.

Definition is_upload (ev : event) : bool :=
  match ev with SessionPut _ _ _ => true | _ => false end.

Definition is_sleep (ev : event) : bool :=
  match ev with Sleep _ => true | _ => false end.

Definition is_setup (ev : event) : bool :=
  match ev with RequestsPost _ _ | ReadLines _ => true | _ => false end.

Definition count (p : event -> bool) (t : list event) : nat :=
  List.length (filter p t).

(** The creation request of [import_recipe]. *)
Definition creation (self : Importer) (payload : json) : event :=
  SessionPost (creation_url self) (headers_ self) payload.

(** The recipe was transformed into [payload] and the target answered
    its creation, asked after [h], with 201 and the identifier
    [recipe_id]. *)
Definition recipe_created (repr : json -> str) (world : World)
    (self : Importer) (recipe_json : json) (h : list event)
    (payload recipe_id : json) : Prop :=
  _transform_recipe repr recipe_json = Ok payload /\
  exists resp body,
    session_post world h (creation_url self) (headers_ self) payload
    = Ok resp /\
    status_code resp = 201%Z /\
    json_body resp = Ok body /\
    getitem body (lit "id") = Ok recipe_id.

(** The configuration written into [main]. *)
Definition configured_username : str := lit "YOUR_USERNAME".
Definition configured_password : str := lit "YOUR_PASSWORD".
Definition configured_base : str := lit "https://tandoor.your.domain".
Definition urls_file : str := lit "recipe_urls.txt".

Definition auth_request (base username password : str) : event :=
  RequestsPost (auth_url base) (auth_data username password).

(** The importer [__init__] builds around a token. *)
Definition importer_of (repr : json -> str) (base : str) (token : json)
  : Importer :=
  {| base_url := base;
     auth_token := token;
     headers_ :=
       [ (lit "Authorization", lit "Bearer " ++ py_str repr token);
         (lit "Content-Type", lit "application/json") ] |}.

(** The character [c] does not occur in [s]. *)
Definition free_of (c : char) (s : str) : bool :=
  forallb (fun x => negb (N.eqb c x)) s.

(** A world whose answers do not depend on the request. *)
Definition fixed_world (auth create download upload : result response)
    (lines : result (list str)) : World :=
  {| requests_post := fun _ _ _ => auth;
     session_post := fun _ _ _ _ => create;
     requests_get := fun _ _ => download;
     session_put := fun _ _ _ _ => upload;
     readlines := fun _ _ => lines |}.

Definition created : result response :=
  Ok (plain_response 201 (JDict [(lit "id", JInt 42)])).

Definition refused : exn := OtherError (lit "ConnectionError") (lit "refused").

(** Worlds for the image step: the creation succeeds, the download and
    the upload are answered or refused as given. *)
Definition image_world (download upload : result response) : World :=
  fixed_world created created download upload (Ok []).

Definition jpeg : response :=
  {| status_code := 200;
     text := [];
     content := [255; 216; 255]%N;
     json_body := Raise (OtherError (lit "JSONDecodeError") (lit "no JSON")) |}.

Definition stew_image_url : str :=
  lit "https://img.example/crop-642x428/stew.jpg".

(** A recipe whose template is a number. *)
Definition numbered : json :=
  JDict [ (lit "title", JStr (lit "Soup"));
          (lit "previewImageUrlTemplate", JInt 7) ].

Definition numbered_payload : json :=
  Eval vm_compute in
    match _transform_recipe no_repr numbered with
    | Ok payload => payload
    | Raise _ => JNone
    end.

Lemma stew_created (world : World) :
  session_post world [] (creation_url demo_importer)
    (headers_ demo_importer) stew_payload = created ->
  recipe_created no_repr world demo_importer stew [] stew_payload (JInt 42).
Proof.
  intros H. split; [reflexivity|].
  exists (plain_response 201 (JDict [(lit "id", JInt 42)])),
    (JDict [(lit "id", JInt 42)]).
  repeat split. exact H.
Qed.

(** ** Facts about strings *)



Lemma lstrip_nil_iff (s : str) : lstrip s = [] <-> blank s = true.
Proof.
  induction s as [|c r IH]; simpl.
  - tauto.
  - destruct (is_space c); simpl.
    + exact IH.
    + split; discriminate.
Qed.

Lemma lstrip_head (s : str) :
  match lstrip s with
  | [] => True
  | c :: _ => is_space c = false
  end.
Proof.
  induction s as [|c r IH]; simpl; [exact I|].
  destruct (is_space c) eqn:E; [exact IH | exact E].
Qed.

Lemma blank_rev (s : str) : blank (rev s) = blank s.
Proof.
  unfold blank.
  induction s as [|c r IH]; simpl; [reflexivity|].
  rewrite forallb_app, IH. simpl.
  rewrite andb_true_r. apply andb_comm.
Qed.

Lemma rev_nil_iff {A} (l : list A) : rev l = [] <-> l = [].
Proof.
  split; intros H.
  - rewrite <- (rev_involutive l), H. reflexivity.
  - subst. reflexivity.
Qed.

(** [s.strip()] is the empty string exactly when [s] holds nothing but
    whitespace. *)
Lemma strip_nil_iff (s : str) : strip s = [] <-> blank s = true.
Proof.
  unfold strip, rstrip.
  etransitivity; [apply rev_nil_iff|].
  etransitivity; [apply lstrip_nil_iff|].
  rewrite blank_rev.
  etransitivity; [|apply lstrip_nil_iff].
  pose proof (lstrip_head s) as Hh.
  destruct (lstrip s) as [|c r]; simpl.
  - tauto.
  - rewrite Hh. simpl. split; discriminate.
Qed.

Lemma nonempty_strip (s : str) : nonempty (strip s) = negb (blank s).
Proof.
  destruct (blank s) eqn:E.
  - apply strip_nil_iff in E. rewrite E. reflexivity.
  - destruct (strip s) eqn:Es; [|reflexivity].
    apply strip_nil_iff in Es. congruence.
Qed.

Lemma strip_prefix_app (p s rest : str) :
  strip_prefix p s = Some rest -> s = p ++ rest.
Proof.
  revert s. induction p as [|a p IH]; intros s H; simpl in *.
  - congruence.
  - destruct s as [|b s]; [discriminate|].
    destruct (N.eqb_spec a b); [|discriminate].
    subst. rewrite (IH s H). reflexivity.
Qed.

Lemma split_go_nonempty (sep : str) (s : str) :
  forall skip cur, split_go sep skip cur s <> [].
Proof.
  induction s as [|c r IH]; intros skip cur; simpl.
  - discriminate.
  - destruct skip; [|apply IH].
    destruct (strip_prefix sep (c :: r)); [discriminate | apply IH].
Qed.

Lemma join_cons (sep p : str) (ps : list str) :
  ps <> [] -> join sep (p :: ps) = p ++ sep ++ join sep ps.
Proof.
  destruct ps; [congruence | reflexivity].
Qed.

Lemma join_split_go (sep : str) :
  sep <> [] ->
  forall s skip cur,
    (skip <= List.length s)%nat ->
    join sep (split_go sep skip cur s) = rev cur ++ skipn skip s.
Proof.
  intros Hsep.
  induction s as [|c r IH]; intros skip cur Hk; simpl in *.
  - replace skip with 0%nat by lia. simpl. now rewrite app_nil_r.
  - destruct skip as [|k].
    + destruct (strip_prefix sep (c :: r)) as [rest|] eqn:E.
      * apply strip_prefix_app in E.
        destruct sep as [|a sep']; [congruence|].
        simpl in E. injection E as -> ->.
        rewrite join_cons by apply split_go_nonempty.
        rewrite IH.
        -- simpl. rewrite Nat.sub_0_r.
           rewrite skipn_app, skipn_all, Nat.sub_diag. reflexivity.
        -- simpl. rewrite Nat.sub_0_r, length_app. lia.
      * rewrite IH by lia. simpl.
        rewrite <- app_assoc. reflexivity.
    + rewrite IH by lia. reflexivity.
Qed.

(** Joining the pieces of a split with the separator gives the string
    back. *)
Lemma join_split (sep s : str) : sep <> [] -> join sep (split sep s) = s.
Proof.
  intros Hsep. unfold split.
  rewrite join_split_go by (auto; lia). reflexivity.
Qed.

(** ** Loops and comprehensions as maps *)

Lemma is_ok_true {A} (m : result A) : is_ok m = true <-> exists a, m = Ok a.
Proof.
  destruct m; simpl; split; intros H; eauto; try discriminate.
  destruct H; discriminate.
Qed.

Lemma rbind_ok {A B} (m : result A) (k : A -> result B) (b : B) :
  rbind m k = Ok b -> exists a, m = Ok a /\ k a = Ok b.
Proof. destruct m; simpl; intros H; [eauto | discriminate]. Qed.

Lemma mapM_Forall2 {A B} (f : A -> result B) (l : list A) (r : list B) :
  mapM f l = Ok r -> Forall2 (fun x y => f x = Ok y) l r.
Proof.
  revert r. induction l as [|x l IH]; simpl; intros r H.
  - injection H as <-. constructor.
  - apply rbind_ok in H as (y & Hy & H).
    apply rbind_ok in H as (ys & Hys & H).
    injection H as <-. constructor; auto.
Qed.

Lemma forallb_eq {A} (f g : A -> bool) (l : list A) :
  (forall x, f x = g x) -> forallb f l = forallb g l.
Proof.
  intros H. induction l as [|x l IH]; simpl; [reflexivity|].
  now rewrite H, IH.
Qed.

Lemma mapM_is_ok {A B} (f : A -> result B) (l : list A) :
  is_ok (mapM f l) = forallb (fun x => is_ok (f x)) l.
Proof.
  induction l as [|x l IH]; simpl; [reflexivity|].
  destruct (f x); simpl; [|reflexivity].
  rewrite <- IH. destruct (mapM f l); reflexivity.
Qed.

(** A loop that appends one computed element per iteration. *)
Lemma for_append {A B} (f : A -> result B) (l : list A) (acc : list B) :
  for_ l (fun acc x => y <- f x ;; Ok (acc ++ [y])) acc
  = (ys <- mapM f l ;; Ok (acc ++ ys)).
Proof.
  revert acc. induction l as [|x l IH]; intros acc; simpl.
  - now rewrite app_nil_r.
  - destruct (f x) as [y|e]; simpl; [|reflexivity].
    rewrite IH. destruct (mapM f l); simpl; [|reflexivity].
    now rewrite <- app_assoc.
Qed.

(** A loop whose body extends the accumulator by a computed block. *)
Lemma for_extend {A B} (f : A -> result (list B)) (l : list A)
    (body : list B -> A -> result (list B)) (acc : list B) :
  (forall acc x, body acc x = (ys <- f x ;; Ok (acc ++ ys))) ->
  for_ l body acc = (yss <- mapM f l ;; Ok (acc ++ concat yss)).
Proof.
  intros Hbody. revert acc.
  induction l as [|x l IH]; intros acc; simpl.
  - now rewrite app_nil_r.
  - rewrite Hbody. destruct (f x) as [ys|e]; simpl; [|reflexivity].
    rewrite IH. destruct (mapM f l); simpl; [|reflexivity].
    now rewrite <- app_assoc.
Qed.

Lemma comprehension_pure {A B} (cond : A -> result bool) (c : A -> bool)
    (f : A -> B) (l : list A) (r : list B) :
  (forall x b, cond x = Ok b -> b = c x) ->
  comprehension l cond f = Ok r -> r = map f (filter c l).
Proof.
  intros Hc. revert r.
  induction l as [|x l IH]; simpl; intros r H.
  - now injection H as <-.
  - apply rbind_ok in H as (b & Hb & H).
    apply rbind_ok in H as (rest & Hrest & H).
    injection H as <-.
    rewrite (IH _ Hrest), (Hc _ _ Hb). simpl.
    destruct (c x); reflexivity.
Qed.

Lemma comprehension_is_ok {A B} (cond : A -> result bool) (f : A -> B)
    (l : list A) :
  is_ok (comprehension l cond f) = forallb (fun x => is_ok (cond x)) l.
Proof.
  induction l as [|x l IH]; simpl; [reflexivity|].
  destruct (cond x); simpl; [|reflexivity].
  rewrite <- IH. destruct (comprehension l cond f); reflexivity.
Qed.

(** ** Dictionaries *)

Lemma eqb_eq (a b : str) : PyStr.eqb a b = true <-> a = b.
Proof.
  unfold PyStr.eqb. destruct (list_eq_dec N.eq_dec a b); split; intros H;
    congruence.
Qed.

Lemma eqb_neq (a b : str) : PyStr.eqb a b = false <-> a <> b.
Proof.
  unfold PyStr.eqb. destruct (list_eq_dec N.eq_dec a b); split; intros H;
    congruence.
Qed.

Lemma lookup_without_same (k : str) (d : list (str * json)) :
  lookup k (without k d) = None.
Proof.
  induction d as [|[k0 v] d IH]; simpl; [reflexivity|].
  destruct (PyStr.eqb k k0) eqn:E; simpl; [exact IH|].
  rewrite E. exact IH.
Qed.

Lemma lookup_without_other (k k' : str) (d : list (str * json)) :
  k <> k' -> lookup k' (without k d) = lookup k' d.
Proof.
  intros Hne.
  induction d as [|[k0 v] d IH]; simpl; [reflexivity|].
  destruct (PyStr.eqb k k0) eqn:E; simpl.
  - apply eqb_eq in E. subst k0.
    assert (PyStr.eqb k' k = false) as -> by (apply eqb_neq; congruence).
    exact IH.
  - rewrite IH. reflexivity.
Qed.

(** Two string literals of the source differ. *)
Ltac lit_neq :=
  let H := fresh in intro H; vm_compute in H; discriminate H.

(** ** The three lists of the transform *)

Section TransformFacts.

Variable repr : json -> str.

Lemma ingredient_entry_is_ok (ing : json) :
  is_ok (ingredient_entry repr ing) = ingredient_ok ing.
Proof.
  destruct ing as [| | | | |l|d]; try reflexivity.
  unfold ingredient_entry, ingredient_ok, getitem, has_key, get.
  destruct (lookup (lit "name") d); simpl; [|reflexivity].
  destruct (lookup (lit "amount") d); simpl; [|reflexivity].
  destruct (lookup (lit "unit") d); reflexivity.
Qed.

Lemma ingredient_entry_amount (ing entry : json) :
  ingredient_entry repr ing = Ok entry -> amount_rendered repr ing entry.
Proof.
  unfold ingredient_entry. intros H.
  apply rbind_ok in H as (name & _ & H).
  apply rbind_ok in H as (amount & Ha & H).
  apply rbind_ok in H as (unit & _ & H).
  apply rbind_ok in H as (note & _ & H).
  injection H as <-.
  exists amount, (JStr (if ne_zero amount then py_str repr amount else [])).
  split; [exact Ha|]. split; [reflexivity|].
  split; [|split].
  - intros ->. split; [reflexivity | discriminate].
  - intros ->. reflexivity.
  - intros z -> Hz. simpl.
    destruct (Z.eqb_spec z 0); [contradiction | reflexivity].
Qed.

Lemma group_entries_is_ok (group : json) :
  is_ok (group_entries repr group) = group_ok group.
Proof.
  unfold group_entries, group_ok, iterable_all.
  destruct (getitem group (lit "ingredients")) as [v|]; simpl; [|reflexivity].
  destruct (iter v) as [ings|]; simpl; [|reflexivity].
  rewrite mapM_is_ok.
  apply forallb_eq. intros ing. apply ingredient_entry_is_ok.
Qed.

(** The two nested loops of lines 29-36, as maps. *)
Lemma collect_ingredients_eq (d : list (str * json)) :
  collect_ingredients repr (JDict d)
  = if truthy (get_or (lit "ingredientGroups") JNone d) then
      groups <- iter (get_or (lit "ingredientGroups") JNone d) ;;
      per_group <- mapM (group_entries repr) groups ;;
      Ok (concat per_group)
    else Ok [].
Proof.
  unfold collect_ingredients, get_or. cbn [get getitem rbind].
  destruct (lookup (lit "ingredientGroups") d) as [v|]; [|reflexivity].
  destruct (truthy v); [|reflexivity].
  cbn [rbind]. destruct (iter v) as [groups|]; cbn [rbind]; [|reflexivity].
  rewrite for_extend with (f := group_entries repr).
  - reflexivity.
  - intros acc group. unfold group_entries.
    destruct (getitem group (lit "ingredients")) as [iv|]; simpl;
      [|reflexivity].
    destruct (iter iv) as [ings|]; simpl; [|reflexivity].
    apply for_append.
Qed.

Lemma collect_ingredients_is_ok (d : list (str * json)) :
  is_ok (collect_ingredients repr (JDict d)) = groups_ok d.
Proof.
  rewrite collect_ingredients_eq. unfold groups_ok, get_or, iterable_all.
  destruct (lookup (lit "ingredientGroups") d) as [v|]; [|reflexivity].
  destruct (truthy v); simpl; [|reflexivity].
  destruct (iter v) as [groups|]; simpl; [|reflexivity].
  rewrite <- (forallb_eq _ _ groups group_entries_is_ok), <- mapM_is_ok.
  destruct (mapM (group_entries repr) groups); reflexivity.
Qed.

Lemma group_entries_source (groups : list json) (per_group : list (list json)) :
  mapM (group_entries repr) groups = Ok per_group ->
  exists ingss,
    mapM group_ingredients groups = Ok ingss /\
    Forall2 (fun ing entry => ingredient_entry repr ing = Ok entry)
      (concat ingss) (concat per_group).
Proof.
  revert per_group.
  induction groups as [|g groups IH]; simpl; intros per_group H.
  - injection H as <-. exists []. split; [reflexivity | constructor].
  - apply rbind_ok in H as (ys & Hys & H).
    apply rbind_ok in H as (yss & Hyss & H).
    injection H as <-.
    destruct (IH _ Hyss) as (ingss & Hm & HF).
    unfold group_entries in Hys.
    apply rbind_ok in Hys as (iv & Hiv & Hys).
    apply rbind_ok in Hys as (ings & Hings & Hys).
    exists (ings :: ingss). split.
    + unfold group_ingredients at 1. rewrite Hiv. simpl.
      rewrite Hings. simpl. rewrite Hm. reflexivity.
    + simpl. apply Forall2_app; [|exact HF].
      apply mapM_Forall2. exact Hys.
Qed.

Lemma collect_steps_eq (d : list (str * json)) :
  collect_steps (JDict d)
  = segments <- py_split (get_or (lit "instructions") (JStr []) d)
                  (CRLF ++ CRLF) ;;
    Ok (map make_step (filter (fun seg => negb (blank seg)) segments)).
Proof.
  unfold collect_steps, get_or, get. simpl.
  destruct (py_split _ _) as [segments|]; simpl; [|reflexivity].
  do 2 f_equal. apply filter_ext. intros seg. apply nonempty_strip.
Qed.

Lemma collect_steps_is_ok (d : list (str * json)) :
  is_ok (collect_steps (JDict d)) = instructions_ok d.
Proof.
  rewrite collect_steps_eq. unfold instructions_ok, get_or.
  destruct (lookup (lit "instructions") d) as [v|]; [|reflexivity].
  destruct v; reflexivity.
Qed.

Lemma keep_tag_kept (tag : json) (b : bool) :
  keep_tag tag = Ok b -> b = kept_tag tag.
Proof.
  unfold keep_tag, kept_tag.
  destruct tag as [|c|z|f|s|l|d]; simpl.
  - congruence.
  - destruct c; simpl; congruence.
  - destruct (z =? 0)%Z; simpl; congruence.
  - destruct (PrimFloat.eqb f 0); simpl; congruence.
  - destruct s as [|c s]; simpl; [congruence|].
    intros H. injection H as <-. apply nonempty_strip.
  - destruct l; simpl; congruence.
  - destruct d; simpl; congruence.
Qed.

Lemma keep_tag_is_ok (tag : json) : is_ok (keep_tag tag) = tag_ok tag.
Proof.
  unfold keep_tag, tag_ok.
  destruct tag as [|c|z|f|s|l|d]; simpl; try reflexivity.
  - destruct c; reflexivity.
  - destruct (z =? 0)%Z; reflexivity.
  - destruct (PrimFloat.eqb f 0); reflexivity.
  - destruct s; reflexivity.
  - destruct l; reflexivity.
  - destruct d; reflexivity.
Qed.

Lemma collect_keywords_inv (d : list (str * json)) (keywords : list json) :
  collect_keywords (JDict d) = Ok keywords ->
  exists tags,
    iter (get_or (lit "tags") (JList []) d) = Ok tags /\
    keywords = map make_keyword (filter kept_tag tags) ++ [pyimport_keyword].
Proof.
  unfold collect_keywords, get_or, get. simpl. intros H.
  apply rbind_ok in H as (tags & Htags & H).
  apply rbind_ok in H as (kws & Hkws & H).
  injection H as <-.
  exists tags. split; [exact Htags|].
  rewrite (comprehension_pure _ kept_tag _ _ _ keep_tag_kept Hkws).
  reflexivity.
Qed.

Lemma collect_keywords_is_ok (d : list (str * json)) :
  is_ok (collect_keywords (JDict d)) = tags_ok d.
Proof.
  unfold collect_keywords, tags_ok, get, iterable_all. simpl.
  assert (forall v,
    is_ok (tags <- iter v ;;
           keywords <- comprehension tags keep_tag make_keyword ;;
           Ok (keywords ++ [make_keyword (JStr (lit "pyimport"))]))
    = match iter v with Ok l => forallb tag_ok l | Raise _ => false end)
    as Hv.
  { intros v. destruct (iter v) as [tags|]; simpl; [|reflexivity].
    rewrite <- (forallb_eq _ _ tags keep_tag_is_ok).
    rewrite <- (comprehension_is_ok keep_tag make_keyword).
    destruct (comprehension tags keep_tag make_keyword); reflexivity. }
  destruct (lookup (lit "tags") d) as [v|]; [apply Hv|reflexivity].
Qed.

Lemma build_payload_inv (d : list (str * json)) (keywords steps : list json)
    (payload : json) :
  build_payload (JDict d) keywords steps = Ok payload ->
  exists name,
    lookup (lit "title") d = Some name /\
    payload =
      JDict
        [ (lit "name", name);
          (lit "description", get_or (lit "additionalDescription") (JStr []) d);
          (lit "keywords", JList keywords);
          (lit "steps", JList steps);
          (lit "working_time", get_or (lit "preparationTime") (JInt 0) d);
          (lit "source_url", get_or (lit "siteUrl") (JStr []) d);
          (lit "servings", get_or (lit "servings") (JInt 0) d);
          (lit "private", JBool false) ].
Proof.
  unfold build_payload, getitem, get, get_or. simpl.
  destruct (lookup (lit "title") d) as [name|]; simpl; [|discriminate].
  intros H. injection H as <-. exists name. split; reflexivity.
Qed.

Lemma build_payload_is_ok (d : list (str * json)) (keywords steps : list json) :
  is_ok (build_payload (JDict d) keywords steps) = has_key (lit "title") d.
Proof.
  unfold build_payload, getitem, get, has_key. simpl.
  destruct (lookup (lit "title") d); reflexivity.
Qed.

(** A successful transform, taken apart. *)
Lemma transform_inv (recipe_data payload : json) :
  _transform_recipe repr recipe_data = Ok payload ->
  exists d ingredients steps keywords,
    recipe_data = JDict d /\
    collect_ingredients repr recipe_data = Ok ingredients /\
    collect_steps recipe_data = Ok steps /\
    collect_keywords recipe_data = Ok keywords /\
    build_payload recipe_data keywords steps = Ok payload.
Proof.
  unfold _transform_recipe. intros H.
  apply rbind_ok in H as (ingredients & Hi & H).
  apply rbind_ok in H as (steps & Hs & H).
  apply rbind_ok in H as (keywords & Hk & H).
  destruct recipe_data as [| | | | | |d]; try discriminate.
  exists d, ingredients, steps, keywords. auto.
Qed.

Lemma transform_is_ok (d : list (str * json)) :
  is_ok (_transform_recipe repr (JDict d))
  = well_shaped d && has_key (lit "title") d.
Proof.
  unfold _transform_recipe, well_shaped.
  rewrite <- collect_ingredients_is_ok, <- collect_steps_is_ok,
    <- collect_keywords_is_ok.
  destruct (collect_ingredients repr (JDict d)); simpl; [|reflexivity].
  destruct (collect_steps (JDict d)) as [steps|]; simpl; [|reflexivity].
  destruct (collect_keywords (JDict d)) as [kws|]; simpl; [|reflexivity].
  apply build_payload_is_ok.
Qed.

End TransformFacts.

(** ** The transform: what the payload holds *)

Lemma get_or_without (k k' : str) (default : json) (d : list (str * json)) :
  k <> k' -> get_or k' default (without k d) = get_or k' default d.
Proof.
  intros Hne. unfold get_or. now rewrite lookup_without_other.
Qed.

(** Taking [ingredientGroups] out of a recipe changes nothing but the
    [ingredients] list. *)
Lemma transform_without_groups (repr : json -> str) (d : list (str * json))
    (payload : json) :
  _transform_recipe repr (JDict d) = Ok payload ->
  _transform_recipe repr (JDict (without (lit "ingredientGroups") d))
  = Ok payload.
Proof.
  intros H.
  apply transform_inv in H
    as (d' & ingredients & steps & keywords & Hd & _ & Hs & Hk & Hp).
  injection Hd as <-.
  unfold _transform_recipe.
  rewrite collect_ingredients_eq.
  unfold get_or at 1. rewrite lookup_without_same. cbn [truthy rbind].
  assert (collect_steps (JDict (without (lit "ingredientGroups") d))
          = Ok steps) as ->.
  { rewrite collect_steps_eq, get_or_without by lit_neq.
    rewrite <- collect_steps_eq. exact Hs. }
  assert (collect_keywords (JDict (without (lit "ingredientGroups") d))
          = Ok keywords) as ->.
  { revert Hk. unfold collect_keywords, get.
    now rewrite lookup_without_other by lit_neq. }
  cbn [rbind]. revert Hp. unfold build_payload, getitem, get.
  now rewrite !lookup_without_other by lit_neq.
Qed.

(** C1.  Whenever the transform returns a payload, the [ingredients]
    list of lines 27-36 was computed, yet the payload has no top-level
    [ingredients] field, every entry of its [steps] has an empty
    [ingredients] list, and the same payload comes out of the recipe
    with [ingredientGroups] removed: the computed list is discarded. *)
Theorem transform_discards_ingredients (repr : json -> str)
    (recipe_data payload : json) :
  _transform_recipe repr recipe_data = Ok payload ->
  exists d fields ingredients steps,
    recipe_data = JDict d /\
    payload = JDict fields /\
    collect_ingredients repr recipe_data = Ok ingredients /\
    lookup (lit "ingredients") fields = None /\
    lookup (lit "steps") fields = Some (JList steps) /\
    Forall (fun step => getitem step (lit "ingredients") = Ok (JList []))
      steps /\
    _transform_recipe repr (JDict (without (lit "ingredientGroups") d))
    = Ok payload.
Proof.
  intros H. pose proof H as H0.
  apply transform_inv in H
    as (d & ingredients & steps & keywords & -> & Hi & Hs & Hk & Hp).
  apply build_payload_inv in Hp as (name & Hname & ->).
  eexists d, _, ingredients, steps.
  repeat split; try reflexivity; try assumption.
  - rewrite collect_steps_eq in Hs.
    apply rbind_ok in Hs as (segments & _ & Hs). injection Hs as <-.
    apply Forall_forall. intros step Hin.
    apply in_map_iff in Hin as (seg & <- & _). reflexivity.
  - now apply transform_without_groups.
Qed.

Lemma transform_discards_ingredients_witness :
  _transform_recipe no_repr stew = Ok stew_payload /\
  exists d fields ingredients steps,
    stew = JDict d /\
    stew_payload = JDict fields /\
    collect_ingredients no_repr stew = Ok ingredients /\
    lookup (lit "ingredients") fields = None /\
    lookup (lit "steps") fields = Some (JList steps) /\
    Forall (fun step => getitem step (lit "ingredients") = Ok (JList []))
      steps /\
    _transform_recipe no_repr (JDict (without (lit "ingredientGroups") d))
    = Ok stew_payload.
Proof.
  split; [reflexivity|].
  apply (transform_discards_ingredients no_repr stew stew_payload).
  reflexivity.
Defined.

(** *** Keywords *)

Lemma transform_keywords (repr : json -> str) (recipe_data payload : json) :
  _transform_recipe repr recipe_data = Ok payload ->
  exists d tags,
    recipe_data = JDict d /\
    iter (get_or (lit "tags") (JList []) d) = Ok tags /\
    getitem payload (lit "keywords")
    = Ok (JList (map make_keyword (filter kept_tag tags)
                   ++ [pyimport_keyword])).
Proof.
  intros H.
  apply transform_inv in H
    as (d & ingredients & steps & keywords & -> & _ & _ & Hk & Hp).
  apply collect_keywords_inv in Hk as (tags & Htags & ->).
  apply build_payload_inv in Hp as (name & _ & ->).
  exists d, tags. split; [reflexivity|]. split; [exact Htags | reflexivity].
Qed.

Lemma count_pyimport_keywords (tags : list json) :
  count_pyimport (map make_keyword tags ++ [pyimport_keyword])
  = S (List.length (filter is_pyimport tags)).
Proof.
  unfold count_pyimport.
  rewrite filter_app, length_app. simpl.
  rewrite Nat.add_1_r. f_equal.
  induction tags as [|t tags IH]; simpl; [reflexivity|].
  destruct (is_pyimport t); simpl; now rewrite IH.
Qed.

Lemma filter_none_length {A} (p : A -> bool) (l : list A) :
  forallb (fun x => negb (p x)) l = true -> List.length (filter p l) = 0%nat.
Proof.
  induction l as [|x l IH]; simpl; [reflexivity|].
  intros H. apply andb_true_iff in H as [Hx Hl].
  destruct (p x); [discriminate | exact (IH Hl)].
Qed.

(** C3, as the code has it.  The keywords are the kept tags in their
    order, each under [name], followed by one appended [pyimport] entry,
    which is the last element.  The sequence holds one [pyimport] entry
    more than there are kept tags equal to ["pyimport"]; it holds exactly
    one when no kept tag is that string. *)
Theorem keywords_end_with_pyimport (repr : json -> str)
    (recipe_data payload : json) :
  _transform_recipe repr recipe_data = Ok payload ->
  exists d tags keywords,
    recipe_data = JDict d /\
    iter (get_or (lit "tags") (JList []) d) = Ok tags /\
    getitem payload (lit "keywords") = Ok (JList keywords) /\
    keywords = map make_keyword (filter kept_tag tags) ++ [pyimport_keyword] /\
    last keywords JNone = pyimport_keyword /\
    count_pyimport keywords
    = S (List.length (filter is_pyimport (filter kept_tag tags))) /\
    (forallb (fun tag => negb (is_pyimport tag)) (filter kept_tag tags) = true ->
     count_pyimport keywords = 1%nat).
Proof.
  intros H.
  apply transform_keywords in H as (d & tags & -> & Htags & Hk).
  exists d, tags, (map make_keyword (filter kept_tag tags) ++ [pyimport_keyword]).
  split; [reflexivity|]. split; [exact Htags|]. split; [exact Hk|].
  split; [reflexivity|]. split; [|split].
  - apply last_last.
  - apply count_pyimport_keywords.
  - intros Hnone. rewrite count_pyimport_keywords. f_equal.
    now apply filter_none_length.
Qed.

Lemma keywords_end_with_pyimport_witness :
  _transform_recipe no_repr soup = Ok soup_payload /\
  exists d tags keywords,
    soup = JDict d /\
    iter (get_or (lit "tags") (JList []) d) = Ok tags /\
    getitem soup_payload (lit "keywords") = Ok (JList keywords) /\
    keywords = map make_keyword (filter kept_tag tags) ++ [pyimport_keyword] /\
    last keywords JNone = pyimport_keyword /\
    count_pyimport keywords
    = S (List.length (filter is_pyimport (filter kept_tag tags))) /\
    (forallb (fun tag => negb (is_pyimport tag)) (filter kept_tag tags) = true ->
     count_pyimport keywords = 1%nat).
Proof.
  split; [reflexivity|].
  apply (keywords_end_with_pyimport no_repr soup soup_payload).
  reflexivity.
Defined.

(** C3, as stated, fails on a recipe one of whose tags is ["pyimport"]:
    [stew] carries the tags [" slow "] and ["pyimport"], and its
    keywords hold two [pyimport] entries. *)
Lemma pyimport_tag_gives_two_keywords :
  exists keywords,
    getitem stew (lit "tags")
    = Ok (JList [JStr (lit " slow "); JStr (lit "pyimport")]) /\
    _transform_recipe no_repr stew = Ok stew_payload /\
    getitem stew_payload (lit "keywords") = Ok (JList keywords) /\
    count_pyimport keywords = 2%nat.
Proof.
  eexists. repeat split.
Qed.

(** C10.  A tag that survives the filter is stored as it came: the
    keywords before the appended one are the kept tags themselves, and a
    kept tag is a string that is not blank, stored with the whitespace
    around it ([strip] serves the test only). *)
Theorem keywords_keep_tags_verbatim (repr : json -> str)
    (recipe_data payload : json) :
  _transform_recipe repr recipe_data = Ok payload ->
  exists d tags,
    recipe_data = JDict d /\
    iter (get_or (lit "tags") (JList []) d) = Ok tags /\
    getitem payload (lit "keywords")
    = Ok (JList (map (fun tag => JDict [(lit "name", tag)])
                   (filter kept_tag tags)
                 ++ [pyimport_keyword])) /\
    Forall (fun tag =>
              kept_tag tag = true <->
              exists s, tag = JStr s /\ strip s <> []) tags.
Proof.
  intros H.
  apply transform_keywords in H as (d & tags & -> & Htags & Hk).
  exists d, tags.
  split; [reflexivity|]. split; [exact Htags|]. split; [exact Hk|].
  apply Forall_forall. intros tag _. unfold kept_tag. split.
  - destruct tag as [| | | |s| |]; try discriminate.
    intros Hb. exists s. split; [reflexivity|].
    intros Hs. apply strip_nil_iff in Hs. rewrite Hs in Hb. discriminate.
  - intros (s & -> & Hs).
    destruct (blank s) eqn:E; [|reflexivity].
    apply strip_nil_iff in E. contradiction.
Qed.

Lemma keywords_keep_tags_verbatim_witness :
  _transform_recipe no_repr stew = Ok stew_payload /\
  getitem stew_payload (lit "keywords")
  = Ok (JList [ JDict [(lit "name", JStr (lit " slow "))];
                JDict [(lit "name", JStr (lit "pyimport"))];
                pyimport_keyword ]) /\
  exists d tags,
    stew = JDict d /\
    iter (get_or (lit "tags") (JList []) d) = Ok tags /\
    getitem stew_payload (lit "keywords")
    = Ok (JList (map (fun tag => JDict [(lit "name", tag)])
                   (filter kept_tag tags)
                 ++ [pyimport_keyword])) /\
    Forall (fun tag =>
              kept_tag tag = true <->
              exists s, tag = JStr s /\ strip s <> []) tags.
Proof.
  split; [reflexivity|]. split; [reflexivity|].
  apply (keywords_keep_tags_verbatim no_repr stew stew_payload).
  reflexivity.
Defined.

(** *** Steps *)

Lemma CRLF2_nonempty : CRLF ++ CRLF <> [].
Proof. discriminate. Qed.

(** C7.  The steps are the pieces of [instructions] between occurrences
    of the double CRLF, in their order, without the pieces that hold
    nothing but whitespace; the pieces joined by the delimiter are the
    instructions again; without an [instructions] field there is no
    step. *)
Theorem steps_split_instructions (repr : json -> str)
    (recipe_data payload : json) :
  _transform_recipe repr recipe_data = Ok payload ->
  exists d instructions,
    recipe_data = JDict d /\
    get_or (lit "instructions") (JStr []) d = JStr instructions /\
    join (CRLF ++ CRLF) (split (CRLF ++ CRLF) instructions) = instructions /\
    getitem payload (lit "steps")
    = Ok (JList (map make_step
                   (filter (fun segment => negb (blank segment))
                      (split (CRLF ++ CRLF) instructions)))) /\
    (lookup (lit "instructions") d = None ->
     getitem payload (lit "steps") = Ok (JList [])).
Proof.
  intros H.
  apply transform_inv in H
    as (d & ingredients & steps & keywords & -> & _ & Hs & _ & Hp).
  apply build_payload_inv in Hp as (name & _ & ->).
  rewrite collect_steps_eq in Hs.
  apply rbind_ok in Hs as (segments & Hsplit & Hs). injection Hs as <-.
  unfold py_split in Hsplit.
  destruct (get_or (lit "instructions") (JStr []) d) as [| | | |instr| |] eqn:E;
    try discriminate.
  injection Hsplit as <-.
  exists d, instr.
  split; [reflexivity|]. split; [exact E|].
  split; [apply join_split, CRLF2_nonempty|].
  split; [reflexivity|].
  intros Hnone. unfold get_or in E. rewrite Hnone in E.
  injection E as <-. reflexivity.
Qed.

Lemma steps_split_instructions_witness :
  _transform_recipe no_repr stew = Ok stew_payload /\
  getitem stew_payload (lit "steps")
  = Ok (JList [ make_step (lit "Brown the beef."); make_step (lit "Simmer.") ]) /\
  exists d instructions,
    stew = JDict d /\
    get_or (lit "instructions") (JStr []) d = JStr instructions /\
    join (CRLF ++ CRLF) (split (CRLF ++ CRLF) instructions) = instructions /\
    getitem stew_payload (lit "steps")
    = Ok (JList (map make_step
                   (filter (fun segment => negb (blank segment))
                      (split (CRLF ++ CRLF) instructions)))) /\
    (lookup (lit "instructions") d = None ->
     getitem stew_payload (lit "steps") = Ok (JList [])).
Proof.
  split; [reflexivity|]. split; [reflexivity|].
  apply (steps_split_instructions no_repr stew stew_payload).
  reflexivity.
Defined.

(** *** Ingredient amounts *)

Lemma collect_ingredients_source (repr : json -> str)
    (recipe_data : json) (entries : list json) :
  collect_ingredients repr recipe_data = Ok entries ->
  exists ings,
    source_ingredients recipe_data = Ok ings /\
    Forall2 (fun ing entry => ingredient_entry repr ing = Ok entry)
      ings entries.
Proof.
  intros H.
  destruct recipe_data as [| | | | | |d]; try discriminate.
  rewrite collect_ingredients_eq in H.
  unfold source_ingredients. cbn [get rbind]. fold (get_or (lit "ingredientGroups") JNone d).
  destruct (truthy (get_or (lit "ingredientGroups") JNone d)).
  - apply rbind_ok in H as (groups & Hg & H).
    apply rbind_ok in H as (per_group & Hm & H). injection H as <-.
    apply group_entries_source in Hm as (ingss & Hm & HF).
    exists (concat ingss). rewrite Hg. cbn [rbind]. rewrite Hm.
    split; [reflexivity | exact HF].
  - injection H as <-. exists []. split; [reflexivity | constructor].
Qed.

(** The amounts that equal zero in Python: the integer, the float (of
    either sign) and [False]. *)
Example amounts_equal_to_zero :
  map ne_zero [JInt 0; JFloat 0%float; JFloat (-0)%float; JBool false]
  = [false; false; false; false] /\
  map ne_zero [JInt 2; JFloat 0.5%float; JStr (lit "0"); JNone]
  = [true; true; true; true].
Proof. split; reflexivity. Qed.

(** C8.  The entries of the computed [ingredients] list stand one for
    one, in document order, for the ingredients of the groups.  Where an
    ingredient's amount equals zero the entry's [amount] is the empty
    string (and so not ["0"]); where it differs from zero it is [str] of
    the amount, which for an integer is its decimal rendering. *)
Theorem zero_amount_is_empty (repr : json -> str)
    (recipe_data : json) (entries : list json) :
  collect_ingredients repr recipe_data = Ok entries ->
  exists ings,
    source_ingredients recipe_data = Ok ings /\
    Forall2 (amount_rendered repr) ings entries.
Proof.
  intros H.
  apply collect_ingredients_source in H as (ings & Hs & HF).
  exists ings. split; [exact Hs|].
  clear Hs. induction HF as [|ing entry ings entries H1 _ IH]; constructor.
  - now apply ingredient_entry_amount.
  - exact IH.
Qed.

Lemma zero_amount_is_empty_witness :
  collect_ingredients no_repr stew = Ok stew_entries /\
  map (fun entry => getitem entry (lit "amount")) stew_entries
  = [Ok (JStr []); Ok (JStr (lit "500")); Ok (JStr (lit "-1"))] /\
  exists ings,
    source_ingredients stew = Ok ings /\
    Forall2 (amount_rendered no_repr) ings stew_entries.
Proof.
  split; [reflexivity|]. split; [reflexivity|].
  apply (zero_amount_is_empty no_repr stew stew_entries).
  reflexivity.
Defined.

(** *** When the transform succeeds *)

(** C4, as the code has it.  The transform returns a payload exactly
    when the recipe is a dictionary with a [title] whose
    [ingredientGroups], [instructions] and [tags] are well shaped, so it
    fails whenever [title] is absent; a recipe with a [title] and none
    of these three fields is well shaped, whatever else it holds or
    lacks. *)
Theorem transform_succeeds_iff (repr : json -> str) (recipe_data : json) :
  ((exists payload, _transform_recipe repr recipe_data = Ok payload) <->
   (exists d,
      recipe_data = JDict d /\
      has_key (lit "title") d = true /\
      well_shaped d = true)) /\
  (forall d,
     recipe_data = JDict d ->
     lookup (lit "title") d = None ->
     exists e, _transform_recipe repr recipe_data = Raise e) /\
  (forall d,
     recipe_data = JDict d ->
     has_key (lit "title") d = true ->
     lookup (lit "ingredientGroups") d = None ->
     lookup (lit "instructions") d = None ->
     lookup (lit "tags") d = None ->
     exists payload, _transform_recipe repr recipe_data = Ok payload).
Proof.
  split; [|split].
  - split.
    + intros (payload & H).
      destruct (transform_inv _ _ _ H) as (d & _ & _ & _ & -> & _).
      exists d. split; [reflexivity|].
      assert (is_ok (_transform_recipe repr (JDict d)) = true) as Hok
        by (rewrite H; reflexivity).
      rewrite transform_is_ok in Hok.
      apply andb_true_iff in Hok as [Hw Ht]. auto.
    + intros (d & -> & Ht & Hw).
      apply is_ok_true. rewrite transform_is_ok, Hw, Ht. reflexivity.
  - intros d -> Hnone.
    pose proof (transform_is_ok repr d) as Hok.
    unfold has_key in Hok. rewrite Hnone, andb_false_r in Hok.
    destruct (_transform_recipe repr (JDict d)) as [p|e];
      [discriminate | eauto].
  - intros d -> Ht Hg Hi Htags.
    apply is_ok_true. rewrite transform_is_ok, Ht.
    unfold well_shaped, groups_ok, instructions_ok, tags_ok.
    rewrite Hg, Hi, Htags. reflexivity.
Qed.

Lemma transform_succeeds_iff_witness :
  exists payload, _transform_recipe no_repr soup = Ok payload.
Proof.
  apply (proj2 (proj1 (transform_succeeds_iff no_repr soup))).
  exists (match soup with JDict d => d | _ => [] end).
  repeat split.
Defined.

(** C4, as stated, fails on [unitless]: it has a [title], and its one
    ingredient has a name and an amount but no [unit], which line 34
    subscripts. *)
Lemma transform_fails_with_title :
  getitem unitless (lit "title") = Ok (JStr (lit "Toast")) /\
  _transform_recipe no_repr unitless = Raise (KeyError (lit "unit")).
Proof. split; reflexivity. Qed.

(** The scenario of the specification. *)
Example soup_scenario :
  _transform_recipe no_repr soup
  = Ok (JDict
          [ (lit "name", JStr (lit "Soup"));
            (lit "description", JStr []);
            (lit "keywords",
              JList [ JDict [(lit "name", JStr (lit "quick"))];
                      JDict [(lit "name", JStr (lit "pyimport"))] ]);
            (lit "steps",
              JList
                [ JDict [ (lit "instruction", JStr (lit "Boil water."));
                          (lit "ingredients", JList []) ];
                  JDict [ (lit "instruction", JStr (lit "Add salt."));
                          (lit "ingredients", JList []) ] ]);
            (lit "working_time", JInt 10);
            (lit "source_url", JStr []);
            (lit "servings", JInt 4);
            (lit "private", JBool false) ]).
Proof. reflexivity. Qed.

(** ** The import routine *)

Lemma transform_title (repr : json -> str) (recipe_json payload : json) :
  _transform_recipe repr recipe_json = Ok payload ->
  exists d title,
    recipe_json = JDict d /\ getitem recipe_json (lit "title") = Ok title.
Proof.
  intros H.
  apply transform_inv in H as (d & _ & steps & keywords & -> & _ & _ & _ & Hp).
  apply build_payload_inv in Hp as (name & Hname & _).
  exists d, name. split; [reflexivity|].
  unfold getitem. now rewrite Hname.
Qed.

Lemma skipn_length_app {A} (h t : list A) : skipn (List.length h) (h ++ t) = t.
Proof.
  induction h as [|x h IH]; simpl; [reflexivity | exact IH].
Qed.

(** *** Computations extend the trace *)

Lemma extends_lift {A} (r : result A) : extends (lift r).
Proof. intros h. exists []. simpl. now rewrite app_nil_r. Qed.

Lemma extends_ret {A} (a : A) : extends (ret a).
Proof. intros h. exists []. simpl. now rewrite app_nil_r. Qed.

Lemma extends_raise {A} (e : exn) : extends (@raise A e).
Proof. intros h. exists []. simpl. now rewrite app_nil_r. Qed.

Lemma extends_call {A} (e : event) (answer : list event -> result A) :
  extends (call e answer).
Proof. intros h. exists [e]. reflexivity. Qed.

Lemma extends_print (line : str) : extends (print line).
Proof. intros h. exists [Print line]. reflexivity. Qed.

Lemma extends_sleep (seconds : Z) : extends (sleep seconds).
Proof. intros h. exists [Sleep seconds]. reflexivity. Qed.

Lemma extends_bind {A B} (m : io A) (k : A -> io B) :
  extends m -> (forall a, extends (k a)) -> extends (bind m k).
Proof.
  intros Hm Hk h. unfold bind.
  destruct (Hm h) as (t & Ht).
  destruct (m h) as [h1 [a|e]]; simpl in Ht; subst h1.
  - destruct (Hk a (h ++ t)) as (t' & Ht').
    exists (t ++ t'). rewrite Ht'. apply eq_sym, app_assoc.
  - exists t. reflexivity.
Qed.

Lemma extends_try {A} (body : io A) (handler : exn -> io A) :
  extends body -> (forall e, extends (handler e)) ->
  extends (try_except body handler).
Proof.
  intros Hm Hk h. unfold try_except.
  destruct (Hm h) as (t & Ht).
  destruct (body h) as [h1 [a|e]]; simpl in Ht; subst h1.
  - exists t. reflexivity.
  - destruct (Hk e (h ++ t)) as (t' & Ht').
    exists (t ++ t'). rewrite Ht'. apply eq_sym, app_assoc.
Qed.

Lemma extends_if {A} (b : bool) (m1 m2 : io A) :
  extends m1 -> extends m2 -> extends (if b then m1 else m2).
Proof. destruct b; auto. Qed.

Create HintDb io_extends.
#[local] Hint Resolve extends_lift extends_ret extends_raise extends_call
  extends_print extends_sleep : io_extends.

Ltac extends_tac :=
  repeat first
    [ apply extends_bind; [|intro]
    | apply extends_try; [|intro]
    | apply extends_if
    | solve [auto with io_extends] ].

Section ImportFacts.

Variable repr : json -> str.
Variable exn_str : exn -> str.
Variable world : World.
Variable self : Importer.

Lemma attach_image_extends (recipe_json recipe_id : json) :
  extends (attach_image repr world self recipe_json recipe_id).
Proof. unfold attach_image. extends_tac. Qed.

Lemma import_recipe_extends (recipe_json : json) :
  extends (import_recipe repr exn_str world self recipe_json).
Proof.
  unfold import_recipe, import_body. extends_tac.
Qed.

End ImportFacts.

Ltac io_simpl :=
  cbv beta iota zeta delta
    [import_recipe import_body add_image attach_image process_url
     try_except bind lift call print sleep ret raise fst snd].

(** Split on the first test whose outcome is not yet known. *)
Ltac io_case :=
  match goal with
  | |- context [match ?x with _ => _ end] =>
      lazymatch x with
      | context [match _ with _ => _ end] => fail
      | _ => destruct x eqn:?
      end
  end;
  io_simpl.

(** The same, leaving the image step folded. *)
Ltac io_simpl_outer :=
  cbv beta iota zeta delta
    [import_recipe import_body process_url
     try_except bind lift call print sleep ret raise fst snd].

Ltac status_eq :=
  repeat match goal with
  | H : negb _ = false |- _ => apply negb_false_iff in H
  | H : negb _ = true |- _ => apply negb_true_iff in H
  | H : (_ =? _)%Z = true |- _ => apply Z.eqb_eq in H
  | H : (_ =? _)%Z = false |- _ => apply Z.eqb_neq in H
  end.

Section ImportClaims.

Variable repr : json -> str.
Variable exn_str : exn -> str.
Variable world : World.
Variable self : Importer.

(** No image request is made unless the creation was answered 201 with
    an identifier. *)
Lemma image_step_needs_creation (recipe_json : json) (h : list event) :
  existsb is_image_event
    (skipn (List.length h)
       (fst (import_recipe repr exn_str world self recipe_json h))) = true ->
  exists payload resp body recipe_id,
    _transform_recipe repr recipe_json = Ok payload /\
    session_post world h (creation_url self) (headers_ self) payload
    = Ok resp /\
    status_code resp = 201%Z /\
    json_body resp = Ok body /\
    getitem body (lit "id") = Ok recipe_id.
Proof.
  unfold creation_url. io_simpl.
  repeat io_case.
  all: repeat rewrite <- app_assoc.
  all: try rewrite skipn_length_app; try rewrite skipn_all.
  all: cbn [existsb is_image_event app orb].
  all: try discriminate.
  all: intros _; status_eq; eauto 10.
Qed.

(** The image step returns normally whatever the world answers. *)
Lemma add_image_returns (recipe_json recipe_id title : json) (h : list event) :
  getitem recipe_json (lit "title") = Ok title ->
  exists t, add_image repr exn_str world self recipe_json recipe_id h
            = (h ++ t, Ok tt).
Proof.
  intros Ht.
  destruct recipe_json as [| | | | | |d]; try discriminate Ht.
  io_simpl. cbn [get].
  repeat (rewrite ?Ht; io_case).
  all: rewrite ?Ht.
  all: try (eexists; repeat rewrite <- app_assoc; reflexivity).
  all: exists []; rewrite app_nil_r; reflexivity.
Qed.

End ImportClaims.

(** *** Exceptions stop at [import_recipe] *)

(** C2.  For a dictionary, [import_recipe] returns normally in every
    world.  When the body of its [try] raised, the trace ends with the
    line that names the title, or ["unknown"] where the recipe has none,
    and the exception; when it did not, nothing is added. *)
Theorem import_never_raises (repr : json -> str) (exn_str : exn -> str)
    (world : World) (self : Importer) (d : list (str * json))
    (h : list event) :
  exists h',
    import_recipe repr exn_str world self (JDict d) h = (h', Ok tt) /\
    (forall h1 e,
       import_body repr exn_str world self (JDict d) h = (h1, Raise e) ->
       h' = h1 ++ [Print (lit "Error importing "
                            ++ py_str repr
                                 (get_or (lit "title") (JStr (lit "unknown")) d)
                            ++ lit ": " ++ exn_str e)]) /\
    (forall h1,
       import_body repr exn_str world self (JDict d) h = (h1, Ok tt) ->
       h' = h1).
Proof.
  unfold import_recipe, try_except.
  destruct (import_body repr exn_str world self (JDict d) h)
    as [h1 [[]|e]].
  - exists h1. split; [reflexivity|]. split.
    + intros h2 e H. discriminate H.
    + intros h2 H. now injection H.
  - eexists. split; [reflexivity|]. split.
    + intros h2 e' H. injection H as <- <-. reflexivity.
    + intros h2 H. discriminate H.
Qed.

(** An exception of the transform, one of the creation request and one
    of the download, each ending in a normal return. *)
Example import_logs_transform_error :
  import_recipe no_repr exn_name (demo_world 201) demo_importer unitless []
  = ([Print (lit "Error importing Toast: 'unit'")], Ok tt).
Proof. reflexivity. Qed.

Example import_logs_request_error :
  import_recipe no_repr exn_name offline_world demo_importer stew []
  = ([ SessionPost (creation_url demo_importer) (headers_ demo_importer)
         stew_payload;
       Print (lit "Error importing Stew: refused") ],
     Ok tt).
Proof. reflexivity. Qed.

Example import_logs_download_error :
  import_recipe no_repr exn_name file_world demo_importer stew []
  = ([ SessionPost (creation_url demo_importer) (headers_ demo_importer)
         stew_payload;
       RequestsGet (lit "https://img.example/crop-642x428/stew.jpg");
       Print (lit "Error during image upload for Stew: Invalid URL");
       Print (lit "Recipe 'Stew' successfully imported");
       Sleep 1 ],
     Ok tt).
Proof. reflexivity. Qed.

(** A recipe without a title is logged as ["unknown"]. *)
Example import_logs_unknown :
  import_recipe no_repr exn_name (demo_world 201) demo_importer (JDict []) []
  = ([Print (lit "Error importing unknown: 'title'")], Ok tt).
Proof. reflexivity. Qed.

Lemma import_never_raises_witness :
  exists h',
    import_recipe no_repr exn_name (demo_world 201) demo_importer unitless []
    = (h', Ok tt) /\
    h' = [Print (lit "Error importing Toast: 'unit'")].
Proof.
  destruct (import_never_raises no_repr exn_name (demo_world 201)
              demo_importer
              (match unitless with JDict d => d | _ => [] end) [])
    as (h' & Hrun & Hraise & _).
  exists h'. split; [exact Hrun|].
  apply (Hraise [] (KeyError (lit "unit"))). reflexivity.
Defined.

(** *** A refused creation *)

(** C5.  When the creation is answered with a status other than 201,
    the routine logs the title and the body of the answer and returns;
    the trace holds the creation request and that line, nothing else.
    And in every run, an image request in the trace means that the
    creation was answered 201 with an identifier. *)
Theorem creation_failure_returns_early (repr : json -> str)
    (exn_str : exn -> str) (world : World) (self : Importer)
    (recipe_json : json) (h : list event) :
  (forall payload resp,
     _transform_recipe repr recipe_json = Ok payload ->
     session_post world h (creation_url self) (headers_ self) payload
     = Ok resp ->
     status_code resp <> 201%Z ->
     exists title,
       getitem recipe_json (lit "title") = Ok title /\
       import_recipe repr exn_str world self recipe_json h
       = (h ++ [ SessionPost (creation_url self) (headers_ self) payload;
                 Print (lit "Error creating recipe " ++ py_str repr title
                          ++ lit ": " ++ text resp) ],
          Ok tt)) /\
  (existsb is_image_event
     (skipn (List.length h)
        (fst (import_recipe repr exn_str world self recipe_json h))) = true ->
   exists payload resp body recipe_id,
     _transform_recipe repr recipe_json = Ok payload /\
     session_post world h (creation_url self) (headers_ self) payload
     = Ok resp /\
     status_code resp = 201%Z /\
     json_body resp = Ok body /\
     getitem body (lit "id") = Ok recipe_id).
Proof.
  split; [|apply image_step_needs_creation].
  intros payload resp Ht Hp Hs.
  destruct (transform_title _ _ _ Ht) as (d & title & -> & Htitle).
  exists title. split; [exact Htitle|].
  unfold creation_url in *. io_simpl.
  rewrite Ht. io_simpl. rewrite Hp. io_simpl.
  destruct (Z.eqb_spec (status_code resp) 201) as [|_]; [contradiction|].
  cbn [negb]. io_simpl. rewrite Htitle. io_simpl.
  rewrite <- app_assoc. reflexivity.
Qed.

Lemma creation_failure_returns_early_witness :
  exists payload resp title,
    _transform_recipe no_repr stew = Ok payload /\
    session_post (demo_world 400) [] (creation_url demo_importer)
      (headers_ demo_importer) payload = Ok resp /\
    status_code resp <> 201%Z /\
    getitem stew (lit "title") = Ok title /\
    import_recipe no_repr exn_name (demo_world 400) demo_importer stew []
    = ([ SessionPost (creation_url demo_importer) (headers_ demo_importer)
           payload;
         Print (lit "Error creating recipe " ++ py_str no_repr title
                  ++ lit ": " ++ text resp) ],
       Ok tt).
Proof.
  exists stew_payload, (plain_response 400 (JDict [(lit "id", JInt 42)])).
  destruct (proj1 (creation_failure_returns_early no_repr exn_name
                     (demo_world 400) demo_importer stew [])
              stew_payload
              (plain_response 400 (JDict [(lit "id", JInt 42)]))
              eq_refl eq_refl)
    as (title & Htitle & Hrun).
  - discriminate.
  - exists title. repeat split; try reflexivity; try assumption.
    discriminate.
Defined.

(** *** A failed image step *)

(** C6.  After a creation answered 201 with an identifier, the routine
    always ends with the line of success and the pause and returns
    normally, whatever the image step met in between.  In particular,
    when the recipe has a template and the download is answered with a
    status other than 200, the image step consists of the download and
    one log line: no upload is made. *)
Theorem image_failure_keeps_success (repr : json -> str)
    (exn_str : exn -> str) (world : World) (self : Importer)
    (recipe_json payload : json) (resp : response) (body recipe_id : json)
    (h : list event) :
  _transform_recipe repr recipe_json = Ok payload ->
  session_post world h (creation_url self) (headers_ self) payload
  = Ok resp ->
  status_code resp = 201%Z ->
  json_body resp = Ok body ->
  getitem body (lit "id") = Ok recipe_id ->
  exists title,
    getitem recipe_json (lit "title") = Ok title /\
    (exists image_events,
       import_recipe repr exn_str world self recipe_json h
       = (h ++ SessionPost (creation_url self) (headers_ self) payload
            :: image_events
            ++ [ Print (lit "Recipe '" ++ py_str repr title
                          ++ lit "' successfully imported");
                 Sleep 1 ],
          Ok tt)) /\
    (forall template image_response,
       getitem recipe_json (lit "previewImageUrlTemplate")
       = Ok (JStr template) ->
       template <> [] ->
       requests_get world
         (h ++ [SessionPost (creation_url self) (headers_ self) payload])
         (replace (lit "<format>") (lit "crop-642x428") template)
       = Ok image_response ->
       status_code image_response <> 200%Z ->
       import_recipe repr exn_str world self recipe_json h
       = (h ++ [ SessionPost (creation_url self) (headers_ self) payload;
                 RequestsGet
                   (replace (lit "<format>") (lit "crop-642x428") template);
                 Print (lit "Error downloading image for "
                          ++ py_str repr title);
                 Print (lit "Recipe '" ++ py_str repr title
                          ++ lit "' successfully imported");
                 Sleep 1 ],
          Ok tt)).
Proof.
  intros Ht Hp Hs Hb Hid.
  destruct (transform_title _ _ _ Ht) as (d & title & -> & Htitle).
  exists title. split; [exact Htitle|].
  unfold creation_url in *.
  split.
  - destruct (add_image_returns repr exn_str world self (JDict d) recipe_id
                title
                (h ++ [SessionPost (base_url self ++ lit "/api/recipe/")
                         (headers_ self) payload]) Htitle)
      as (t & Hadd).
    exists t. io_simpl_outer.
    rewrite Ht. io_simpl_outer. rewrite Hp. io_simpl_outer.
    rewrite Hs. cbn [Z.eqb Pos.eqb negb]. io_simpl_outer.
    rewrite Hb. io_simpl_outer. rewrite Hid. io_simpl_outer.
    rewrite Hadd. io_simpl_outer. rewrite Htitle. io_simpl_outer.
    repeat rewrite <- app_assoc. reflexivity.
  - intros template image_response Htmpl Hne Hget Hstatus.
    pose proof Htmpl as Hlook. unfold getitem in Hlook.
    destruct (lookup (lit "previewImageUrlTemplate") d) as [v|] eqn:El;
      [|discriminate Hlook].
    injection Hlook as ->.
    destruct template as [|c template]; [contradiction|].
    io_simpl.
    rewrite Ht. io_simpl. rewrite Hp. io_simpl.
    rewrite Hs. cbn [Z.eqb Pos.eqb negb]. io_simpl.
    rewrite Hb. io_simpl. rewrite Hid. io_simpl.
    cbn [get]. rewrite El. io_simpl. cbn [truthy nonempty]. io_simpl.
    rewrite Htmpl. io_simpl. cbn [py_replace]. io_simpl.
    rewrite Hget. io_simpl.
    destruct (Z.eqb_spec (status_code image_response) 200) as [|_];
      [contradiction|].
    io_simpl. rewrite Htitle. io_simpl.
    repeat rewrite <- app_assoc. reflexivity.
Qed.

Lemma image_failure_keeps_success_witness :
  exists title,
    _transform_recipe no_repr stew = Ok stew_payload /\
    getitem stew (lit "title") = Ok title /\
    import_recipe no_repr exn_name (demo_world 201) demo_importer stew []
    = ([ SessionPost (creation_url demo_importer) (headers_ demo_importer)
           stew_payload;
         RequestsGet (lit "https://img.example/crop-642x428/stew.jpg");
         Print (lit "Error downloading image for " ++ py_str no_repr title);
         Print (lit "Recipe '" ++ py_str no_repr title
                  ++ lit "' successfully imported");
         Sleep 1 ],
       Ok tt).
Proof.
  destruct (image_failure_keeps_success no_repr exn_name (demo_world 201)
              demo_importer stew stew_payload
              (plain_response 201 (JDict [(lit "id", JInt 42)]))
              (JDict [(lit "id", JInt 42)]) (JInt 42) []
              eq_refl eq_refl eq_refl eq_refl eq_refl)
    as (title & Htitle & _ & Hrun).
  exists title. split; [reflexivity|]. split; [exact Htitle|].
  apply (Hrun (lit "https://img.example/<format>/stew.jpg")
           (plain_response 404 JNone)).
  - reflexivity.
  - discriminate.
  - reflexivity.
  - discriminate.
Defined.

(** *** The batch loop *)

Lemma process_url_step (repr : json -> str) (exn_str : exn -> str)
    (world : World) (importer : Importer) (line : str) (h : list event) :
  exists h1,
    process_url repr exn_str world importer line h = (h1, Ok tt) /\
    url_step repr exn_str world importer h line h1.
Proof.
  unfold process_url, try_except, bind, call, lift, print.
  destruct (requests_get world h (strip line)) as [response|e] eqn:Eg.
  - destruct (json_body response) as [recipe_data|e] eqn:Ej.
    + destruct (import_recipe_extends repr exn_str world importer recipe_data
                  (h ++ [RequestsGet (strip line)])) as (rest & Hrest).
      destruct (import_recipe repr exn_str world importer recipe_data
                  (h ++ [RequestsGet (strip line)])) as [h2 r] eqn:Ei.
      cbn [fst] in Hrest. subst h2.
      rewrite <- app_assoc in Ei. cbn [app] in Ei.
      rewrite <- app_assoc. cbn [app].
      destruct r as [[]|e].
      * eexists. split; [reflexivity|].
        eapply imported; eassumption.
      * eexists. split; [reflexivity|].
        replace ((h ++ RequestsGet (strip line) :: rest)
                 ++ [Print (lit "Error processing URL " ++ strip line
                              ++ lit ": " ++ exn_str e)])
          with (h ++ RequestsGet (strip line)
                  :: rest ++ [url_error exn_str (strip line) e])
          by (rewrite <- app_assoc; reflexivity).
        eapply import_raised; eassumption.
    + eexists. split; [reflexivity|].
      rewrite <- app_assoc. cbn [app].
      eapply parse_failed; eassumption.
  - eexists. split; [reflexivity|].
    rewrite <- app_assoc. cbn [app].
    apply fetch_failed. exact Eg.
Qed.

Lemma loop_is_batch (repr : json -> str) (exn_str : exn -> str)
    (world : World) (importer : Importer) (lines : list str) :
  forall h,
  exists h',
    for_io lines (process_url repr exn_str world importer) h = (h', Ok tt) /\
    batch repr exn_str world importer h lines h'.
Proof.
  induction lines as [|line lines IH]; intros h; simpl.
  - exists h. split; [reflexivity | constructor].
  - destruct (process_url_step repr exn_str world importer line h)
      as (h1 & Hrun & Hstep).
    destruct (IH h1) as (h2 & Hloop & Hbatch).
    exists h2. unfold bind. rewrite Hrun, Hloop.
    split; [reflexivity|].
    econstructor; eassumption.
Qed.

(** C9, as the code has it.  Once the importer is built and the file is
    read, [main] returns normally, and its trace is that of the batch
    relation over all the lines of the file in their order, the blank
    ones as well: for each line the stripped line is requested; a failed
    request or parse is logged with the URL and the next line follows;
    a parsed document goes to [import_recipe]. *)
Theorem main_processes_every_line (repr : json -> str)
    (exn_str : exn -> str) (world : World) (importer : Importer)
    (lines : list str) (h h1 : list event) :
  init repr world (lit "YOUR_USERNAME") (lit "YOUR_PASSWORD")
    (lit "https://tandoor.your.domain") h = (h1, Ok importer) ->
  readlines world h1 (lit "recipe_urls.txt") = Ok lines ->
  exists h',
    main repr exn_str world h = (h', Ok tt) /\
    batch repr exn_str world importer
      (h1 ++ [ReadLines (lit "recipe_urls.txt")]) lines h'.
Proof.
  intros Hinit Hread.
  destruct (loop_is_batch repr exn_str world importer lines
              (h1 ++ [ReadLines (lit "recipe_urls.txt")]))
    as (h' & Hloop & Hbatch).
  exists h'. split; [|exact Hbatch].
  unfold main, bind at 1. rewrite Hinit.
  unfold bind, call. rewrite Hread. exact Hloop.
Qed.

Lemma main_processes_every_line_witness :
  exists importer h1 h',
    init no_repr file_world (lit "YOUR_USERNAME") (lit "YOUR_PASSWORD")
      (lit "https://tandoor.your.domain") [] = (h1, Ok importer) /\
    readlines file_world h1 (lit "recipe_urls.txt")
    = Ok [soup_url ++ [10%N]; [10%N]] /\
    main no_repr exn_name file_world [] = (h', Ok tt) /\
    batch no_repr exn_name file_world importer
      (h1 ++ [ReadLines (lit "recipe_urls.txt")])
      [soup_url ++ [10%N]; [10%N]] h'.
Proof.
  eexists. eexists.
  destruct (main_processes_every_line no_repr exn_name file_world
              _ [soup_url ++ [10%N]; [10%N]] [] _ eq_refl eq_refl)
    as (h' & Hmain & Hbatch).
  exists h'. repeat split; assumption.
Defined.

(** C9, as stated, fails on a file with a blank line: the loop does not
    leave it out.  In [file_world] the file holds the URL of [soup] and
    a blank line; after the import of [soup], the empty URL is
    requested and the failure of that request is logged. *)
Lemma blank_line_is_requested :
  readlines file_world [] (lit "recipe_urls.txt")
  = Ok [soup_url ++ [10%N]; [10%N]] /\
  strip [10%N] = [] /\
  exists before,
    main no_repr exn_name file_world []
    = (before ++ [ RequestsGet [];
                   Print (lit "Error processing URL : Invalid URL") ],
       Ok tt).
Proof.
  split; [reflexivity|]. split; [reflexivity|].
  eexists (_ :: _ :: _ :: _ :: _ :: [_]). reflexivity.
Qed.

(** ** More about [strip] *)

Lemma lstrip_app_blank (p s : str) :
  blank p = true -> lstrip (p ++ s) = lstrip s.
Proof.
  induction p as [|c p IH]; simpl; [reflexivity|].
  intros H. apply andb_true_iff in H as [Hc Hp].
  rewrite Hc. exact (IH Hp).
Qed.

Lemma lstrip_suffix (s : str) :
  exists p, s = p ++ lstrip s /\ blank p = true.
Proof.
  induction s as [|c s IH]; simpl.
  - exists []. split; reflexivity.
  - destruct (is_space c) eqn:E.
    + destruct IH as (p & Hs & Hp).
      exists (c :: p). split.
      * simpl. now rewrite <- Hs.
      * simpl. now rewrite E, Hp.
    + exists []. split; reflexivity.
Qed.

Lemma lstrip_fixed (c : char) (s : str) :
  is_space c = false -> lstrip (c :: s) = c :: s.
Proof. intros H. simpl. now rewrite H. Qed.

Lemma rev_cons_last (c : char) (s : str) :
  rev (c :: s) = last (c :: s) c :: rev (removelast (c :: s)).
Proof.
  assert (c :: s <> []) as Hne by discriminate.
  rewrite (app_removelast_last c Hne) at 1.
  rewrite rev_app_distr. reflexivity.
Qed.

Lemma clean_cons (c : char) (s : str) :
  clean (c :: s) = true ->
  is_space c = false /\ is_space (last (c :: s) c) = false.
Proof.
  unfold clean. intros H. apply andb_true_iff in H as [H1 H2].
  split; now apply negb_true_iff.
Qed.

Lemma rstrip_app_blank (s p : str) :
  blank p = true -> rstrip (s ++ p) = rstrip s.
Proof.
  intros Hp. unfold rstrip. rewrite rev_app_distr.
  rewrite lstrip_app_blank; [reflexivity|].
  now rewrite blank_rev.
Qed.

Lemma rstrip_clean (s : str) : clean s = true -> rstrip s = s.
Proof.
  destruct s as [|c s]; [reflexivity|].
  intros H. apply clean_cons in H as [_ Hl].
  unfold rstrip. rewrite rev_cons_last, lstrip_fixed by exact Hl.
  rewrite <- rev_cons_last. apply rev_involutive.
Qed.

(** [strip] removes the whitespace around a string that neither
    starts nor ends with whitespace and gives back that string. *)
Theorem strip_padded (before s after : str) :
  blank before = true ->
  blank after = true ->
  clean s = true ->
  strip (before ++ s ++ after) = s.
Proof.
  intros Hb Ha Hs. unfold strip.
  rewrite lstrip_app_blank by exact Hb.
  destruct s as [|c s].
  - simpl. apply lstrip_nil_iff in Ha. rewrite Ha. reflexivity.
  - destruct (clean_cons _ _ Hs) as [Hc _].
    change ((c :: s) ++ after) with (c :: (s ++ after)).
    rewrite lstrip_fixed by exact Hc.
    change (c :: (s ++ after)) with ((c :: s) ++ after).
    rewrite rstrip_app_blank by exact Ha.
    now apply rstrip_clean.
Qed.

Example strip_padded_example :
  strip (lit "  " ++ lit "https://src.example/a b.json" ++ [13; 10]%N)
  = lit "https://src.example/a b.json".
Proof.
  apply (strip_padded (lit "  ") (lit "https://src.example/a b.json")
           [13; 10]%N); reflexivity.
Defined.

Lemma clean_snoc (l : str) (x : char) :
  is_space x = false ->
  is_space (hd x (l ++ [x])) = false ->
  clean (l ++ [x]) = true.
Proof.
  intros Hx Hh. destruct l as [|c l].
  - simpl. now rewrite Hx.
  - simpl in Hh. unfold clean.
    change ((c :: l) ++ [x]) with (c :: (l ++ [x])) at 1.
    cbv iota beta. rewrite last_last, Hh, Hx. reflexivity.
Qed.

(** What [strip] returns neither starts nor ends with whitespace,
    so stripping it again changes nothing. *)
Theorem strip_is_clean (s : str) :
  clean (strip s) = true /\ strip (strip s) = strip s.
Proof.
  assert (clean (strip s) = true) as Hc.
  { unfold strip, rstrip.
    pose proof (lstrip_head s) as Hhead.
    destruct (lstrip s) as [|c u] eqn:Eu; [reflexivity|].
    destruct (lstrip_suffix (rev (c :: u))) as (p & Hp & Hblank).
    pose proof (lstrip_head (rev (c :: u))) as Hv.
    destruct (lstrip (rev (c :: u))) as [|x v] eqn:Ev.
    - rewrite app_nil_r in Hp. rewrite <- Hp, blank_rev in Hblank.
      simpl in Hblank. rewrite Hhead in Hblank. discriminate.
    - assert (c :: u = rev (x :: v) ++ rev p) as Hu.
      { rewrite <- rev_app_distr, <- Hp. now rewrite rev_involutive. }
      change (rev (x :: v)) with (rev v ++ [x]) in *.
      apply clean_snoc; [exact Hv|].
      destruct (rev v ++ [x]) as [|y w] eqn:Ew.
      + destruct (rev v); discriminate Ew.
      + injection Hu as -> _. exact Hhead. }
  split; [exact Hc|].
  rewrite <- (app_nil_r (strip s)) at 1.
  change (strip s ++ []) with ([] ++ strip s ++ []).
  now apply strip_padded.
Qed.

(** ** More about the transform *)

Lemma filter_length_le {A} (p : A -> bool) (l : list A) :
  (List.length (filter p l) <= List.length l)%nat.
Proof.
  induction l as [|x l IH]; simpl; [lia|].
  destruct (p x); simpl; lia.
Qed.

(** X1.  Every step of the payload carries a text that is not empty and has
    no whitespace at either end, with an empty [ingredients] list beside
    it, and there are no more steps than pieces of the instructions. *)
Theorem steps_are_stripped (repr : json -> str) (recipe_data payload : json) :
  _transform_recipe repr recipe_data = Ok payload ->
  exists d instructions steps,
    recipe_data = JDict d /\
    get_or (lit "instructions") (JStr []) d = JStr instructions /\
    getitem payload (lit "steps") = Ok (JList steps) /\
    (List.length steps
     <= List.length (split (CRLF ++ CRLF) instructions))%nat /\
    Forall (fun step =>
              exists text,
                step = JDict [ (lit "instruction", JStr text);
                               (lit "ingredients", JList []) ] /\
                text <> [] /\ clean text = true /\ strip text = text)
      steps.
Proof.
  intros H.
  apply transform_inv in H
    as (d & ingredients & steps & keywords & -> & _ & Hs & _ & Hp).
  apply build_payload_inv in Hp as (name & _ & ->).
  rewrite collect_steps_eq in Hs.
  apply rbind_ok in Hs as (segments & Hsplit & Hs). injection Hs as <-.
  unfold py_split in Hsplit.
  destruct (get_or (lit "instructions") (JStr []) d) as [| | | |instr| |] eqn:E;
    try discriminate.
  injection Hsplit as <-.
  exists d, instr. eexists.
  split; [reflexivity|]. split; [exact E|]. split; [reflexivity|]. split.
  - rewrite length_map. apply filter_length_le.
  - apply Forall_forall. intros step Hin.
    apply in_map_iff in Hin as (seg & <- & Hseg).
    apply filter_In in Hseg as [_ Hnb].
    exists (strip seg). split; [reflexivity|].
    destruct (strip_is_clean seg) as [Hc Hi].
    split; [|split; assumption].
    intros Hnil. apply strip_nil_iff in Hnil.
    rewrite Hnil in Hnb. discriminate.
Qed.

Lemma steps_are_stripped_witness :
  _transform_recipe no_repr stew = Ok stew_payload /\
  exists d instructions steps,
    stew = JDict d /\
    get_or (lit "instructions") (JStr []) d = JStr instructions /\
    getitem stew_payload (lit "steps") = Ok (JList steps) /\
    (List.length steps
     <= List.length (split (CRLF ++ CRLF) instructions))%nat /\
    Forall (fun step =>
              exists text,
                step = JDict [ (lit "instruction", JStr text);
                               (lit "ingredients", JList []) ] /\
                text <> [] /\ clean text = true /\ strip text = text)
      steps.
Proof.
  split; [reflexivity|].
  apply (steps_are_stripped no_repr stew stew_payload). reflexivity.
Defined.

(** X2.  The payload has the eight fields of lines 46-55 and no other, in
    that order: [name] is the title, [private] is [False], and
    [description], [working_time], [source_url] and [servings] are the
    source's values as they are, or [""], [0], [""], [0] where the
    source has none. *)
Theorem payload_fields (repr : json -> str) (recipe_data payload : json) :
  _transform_recipe repr recipe_data = Ok payload ->
  exists d fields title,
    recipe_data = JDict d /\
    payload = JDict fields /\
    map fst fields
    = [ lit "name"; lit "description"; lit "keywords"; lit "steps";
        lit "working_time"; lit "source_url"; lit "servings";
        lit "private" ] /\
    lookup (lit "title") d = Some title /\
    lookup (lit "name") fields = Some title /\
    lookup (lit "description") fields
    = Some (get_or (lit "additionalDescription") (JStr []) d) /\
    lookup (lit "working_time") fields
    = Some (get_or (lit "preparationTime") (JInt 0) d) /\
    lookup (lit "source_url") fields
    = Some (get_or (lit "siteUrl") (JStr []) d) /\
    lookup (lit "servings") fields
    = Some (get_or (lit "servings") (JInt 0) d) /\
    lookup (lit "private") fields = Some (JBool false).
Proof.
  intros H.
  apply transform_inv in H
    as (d & ingredients & steps & keywords & -> & _ & _ & _ & Hp).
  apply build_payload_inv in Hp as (name & Hname & ->).
  exists d. eexists. exists name.
  split; [reflexivity|]. split; [reflexivity|].
  split; [reflexivity|]. split; [exact Hname|].
  repeat split.
Qed.

Lemma payload_fields_witness :
  _transform_recipe no_repr soup = Ok soup_payload /\
  exists d fields title,
    soup = JDict d /\
    soup_payload = JDict fields /\
    map fst fields
    = [ lit "name"; lit "description"; lit "keywords"; lit "steps";
        lit "working_time"; lit "source_url"; lit "servings";
        lit "private" ] /\
    lookup (lit "title") d = Some title /\
    lookup (lit "name") fields = Some title /\
    lookup (lit "description") fields
    = Some (get_or (lit "additionalDescription") (JStr []) d) /\
    lookup (lit "working_time") fields
    = Some (get_or (lit "preparationTime") (JInt 0) d) /\
    lookup (lit "source_url") fields
    = Some (get_or (lit "siteUrl") (JStr []) d) /\
    lookup (lit "servings") fields
    = Some (get_or (lit "servings") (JInt 0) d) /\
    lookup (lit "private") fields = Some (JBool false).
Proof.
  split; [reflexivity|].
  apply (payload_fields no_repr soup soup_payload). reflexivity.
Defined.

(** X3.  The result of the transform, payload or exception, depends on the
    eight keys it reads and on nothing else in the recipe: two recipes
    that agree on them are transformed alike. *)
Theorem unread_fields_are_ignored (repr : json -> str)
    (d1 d2 : list (str * json)) :
  (forall k, reads k = true -> lookup k d1 = lookup k d2) ->
  _transform_recipe repr (JDict d1) = _transform_recipe repr (JDict d2).
Proof.
  intros H.
  assert (forall k default, reads k = true ->
            get_or k default d1 = get_or k default d2) as Hget.
  { intros k default Hk. unfold get_or. now rewrite (H k Hk). }
  unfold _transform_recipe.
  rewrite !collect_ingredients_eq, !collect_steps_eq.
  rewrite !(Hget (lit "ingredientGroups")) by reflexivity.
  rewrite !(Hget (lit "instructions")) by reflexivity.
  unfold collect_keywords, build_payload, get, getitem.
  rewrite (H (lit "tags")), (H (lit "title")),
    (H (lit "additionalDescription")), (H (lit "preparationTime")),
    (H (lit "siteUrl")), (H (lit "servings")) by reflexivity.
  reflexivity.
Qed.

Lemma unread_fields_are_ignored_witness :
  _transform_recipe no_repr
    (JDict [ (lit "title", JStr (lit "Soup"));
             (lit "rating", JInt 5) ])
  = _transform_recipe no_repr (JDict [(lit "title", JStr (lit "Soup"))]).
Proof.
  apply (unread_fields_are_ignored no_repr).
  intros k Hk. unfold reads, read_keys in Hk. simpl in Hk.
  repeat (apply orb_true_iff in Hk as [Hk|Hk];
          [apply eqb_eq in Hk; subst k; reflexivity|]).
  discriminate Hk.
Defined.

Lemma ingredient_entry_shape (repr : json -> str) (ing entry : json) :
  ingredient_entry repr ing = Ok entry ->
  exists name amount unit note,
    getitem ing (lit "name") = Ok name /\
    getitem ing (lit "amount") = Ok amount /\
    getitem ing (lit "unit") = Ok unit /\
    get ing (lit "usageInfo") (JStr []) = Ok note /\
    entry =
      JDict
        [ (lit "food", JDict [(lit "name", name)]);
          (lit "amount",
            JStr (if ne_zero amount then py_str repr amount else []));
          (lit "unit",
            if truthy unit then JDict [(lit "name", unit)] else JNone);
          (lit "note", note) ].
Proof.
  unfold ingredient_entry. intros H.
  apply rbind_ok in H as (name & Hn & H).
  apply rbind_ok in H as (amount & Ha & H).
  apply rbind_ok in H as (unit & Hu & H).
  apply rbind_ok in H as (note & Hnote & H).
  injection H as <-.
  exists name, amount, unit, note. auto.
Qed.

(** X4.  The computed [ingredients] list has one entry per ingredient of the
    groups, in document order.  An entry holds the name under [food],
    the unit under [unit] as [{name: unit}], or [None] where the unit is
    empty or null, and the [usageInfo] under [note], or [""] where the
    ingredient has none. *)
Theorem ingredient_entries_shape (repr : json -> str)
    (recipe_data : json) (entries : list json) :
  collect_ingredients repr recipe_data = Ok entries ->
  exists ings,
    source_ingredients recipe_data = Ok ings /\
    List.length entries = List.length ings /\
    Forall2
      (fun ing entry =>
         exists fields name unit,
           ing = JDict fields /\
           lookup (lit "name") fields = Some name /\
           lookup (lit "unit") fields = Some unit /\
           getitem entry (lit "food") = Ok (JDict [(lit "name", name)]) /\
           getitem entry (lit "unit")
           = Ok (if truthy unit then JDict [(lit "name", unit)] else JNone) /\
           getitem entry (lit "note")
           = Ok (get_or (lit "usageInfo") (JStr []) fields))
      ings entries.
Proof.
  intros H.
  apply collect_ingredients_source in H as (ings & Hs & HF).
  exists ings. split; [exact Hs|]. split.
  - symmetry. eapply Forall2_length. exact HF.
  - clear Hs. induction HF as [|ing entry ings entries H1 _ IH];
      constructor; [|exact IH].
    apply ingredient_entry_shape in H1
      as (name & amount & unit & note & Hn & _ & Hu & Hnote & ->).
    destruct ing as [| | | | | |fields]; try discriminate Hn.
    unfold getitem in Hn, Hu.
    destruct (lookup (lit "name") fields) as [name'|] eqn:En;
      [|discriminate Hn].
    destruct (lookup (lit "unit") fields) as [unit'|] eqn:Eu;
      [|discriminate Hu].
    injection Hn as ->. injection Hu as ->.
    simpl in Hnote. injection Hnote as <-.
    exists fields, name, unit. repeat split; assumption.
Qed.

Lemma ingredient_entries_shape_witness :
  collect_ingredients no_repr stew = Ok stew_entries /\
  map (fun entry => getitem entry (lit "unit")) stew_entries
  = [ Ok JNone;
      Ok (JDict [(lit "name", JStr (lit "g"))]);
      Ok (JDict [(lit "name", JStr (lit "l"))]) ] /\
  exists ings,
    source_ingredients stew = Ok ings /\
    List.length stew_entries = List.length ings /\
    Forall2
      (fun ing entry =>
         exists fields name unit,
           ing = JDict fields /\
           lookup (lit "name") fields = Some name /\
           lookup (lit "unit") fields = Some unit /\
           getitem entry (lit "food") = Ok (JDict [(lit "name", name)]) /\
           getitem entry (lit "unit")
           = Ok (if truthy unit then JDict [(lit "name", unit)] else JNone) /\
           getitem entry (lit "note")
           = Ok (get_or (lit "usageInfo") (JStr []) fields))
      ings stew_entries.
Proof.
  split; [reflexivity|]. split; [reflexivity|].
  apply (ingredient_entries_shape no_repr stew stew_entries). reflexivity.
Defined.

(** X5.  A recipe that lacks nothing but the title makes the transform raise
    [KeyError('title')]: the title is the last thing it reads. *)
Theorem missing_title_is_key_error (repr : json -> str)
    (d : list (str * json)) :
  well_shaped d = true ->
  lookup (lit "title") d = None ->
  _transform_recipe repr (JDict d) = Raise (KeyError (lit "title")).
Proof.
  intros Hw Hnone.
  unfold well_shaped in Hw.
  apply andb_true_iff in Hw as [Hw Ht].
  apply andb_true_iff in Hw as [Hg Hi].
  rewrite <- (collect_ingredients_is_ok repr) in Hg.
  rewrite <- collect_steps_is_ok in Hi.
  rewrite <- collect_keywords_is_ok in Ht.
  unfold _transform_recipe.
  destruct (collect_ingredients repr (JDict d)); [|discriminate Hg].
  destruct (collect_steps (JDict d)); [|discriminate Hi].
  destruct (collect_keywords (JDict d)); [|discriminate Ht].
  cbn [rbind]. unfold build_payload, getitem.
  now rewrite Hnone.
Qed.

Lemma missing_title_is_key_error_witness :
  _transform_recipe no_repr
    (JDict [(lit "instructions", JStr (lit "Boil water."))])
  = Raise (KeyError (lit "title")).
Proof.
  apply (missing_title_is_key_error no_repr); reflexivity.
Defined.

Lemma keywords_of_characters (s : str) :
  map make_keyword (filter kept_tag (map JStr (chars s)))
  = map (fun c => JDict [(lit "name", JStr [c])])
      (filter (fun c => negb (is_space c)) s).
Proof.
  induction s as [|c s IH]; simpl; [reflexivity|].
  rewrite andb_true_r.
  destruct (is_space c); simpl; now rewrite <- IH.
Qed.

(** X6.  [tags] is not checked to be a list.  Where the source gives one
    string, the loop of line 43 walks through its characters: every
    character that is not whitespace becomes a keyword of its own. *)
Theorem string_of_tags_is_split_into_characters (repr : json -> str)
    (d : list (str * json)) (payload : json) (s : str) :
  _transform_recipe repr (JDict d) = Ok payload ->
  lookup (lit "tags") d = Some (JStr s) ->
  getitem payload (lit "keywords")
  = Ok (JList (map (fun c => JDict [(lit "name", JStr [c])])
                 (filter (fun c => negb (is_space c)) s)
               ++ [pyimport_keyword])).
Proof.
  intros H Htags.
  apply transform_keywords in H as (d' & tags & Hd & Hiter & Hk).
  injection Hd as <-.
  unfold get_or in Hiter. rewrite Htags in Hiter.
  simpl in Hiter. injection Hiter as <-.
  rewrite Hk, keywords_of_characters. reflexivity.
Qed.

Lemma string_of_tags_is_split_into_characters_witness :
  exists payload,
    _transform_recipe no_repr
      (JDict [ (lit "title", JStr (lit "Soup"));
               (lit "tags", JStr (lit "a b")) ])
    = Ok payload /\
    getitem payload (lit "keywords")
    = Ok (JList [ JDict [(lit "name", JStr (lit "a"))];
                  JDict [(lit "name", JStr (lit "b"))];
                  pyimport_keyword ]).
Proof.
  eexists. split; [reflexivity|].
  apply (string_of_tags_is_split_into_characters no_repr
           [ (lit "title", JStr (lit "Soup"));
             (lit "tags", JStr (lit "a b")) ] _ (lit "a b"));
    reflexivity.
Defined.

(** ** More about the import routine *)

Section ImportCases.

Variable repr : json -> str.
Variable exn_str : exn -> str.
Variable world : World.
Variable self : Importer.

(** After a creation, the routine is the image step followed by the
    line of success and the pause. *)
Lemma import_after_creation (recipe_json payload recipe_id title : json)
    (h t : list event) :
  recipe_created repr world self recipe_json h payload recipe_id ->
  getitem recipe_json (lit "title") = Ok title ->
  add_image repr exn_str world self recipe_json recipe_id
    (h ++ [creation self payload])
  = ((h ++ [creation self payload]) ++ t, Ok tt) ->
  import_recipe repr exn_str world self recipe_json h
  = (h ++ creation self payload :: t ++ [success_line repr title; Sleep 1],
     Ok tt).
Proof.
  intros (Ht & resp & body & Hp & Hs & Hb & Hid) Htitle Hadd.
  unfold creation, creation_url, success_line in *.
  io_simpl_outer.
  rewrite Ht. io_simpl_outer. rewrite Hp. io_simpl_outer.
  rewrite Hs. cbn [Z.eqb Pos.eqb negb]. io_simpl_outer.
  rewrite Hb. io_simpl_outer. rewrite Hid. io_simpl_outer.
  rewrite Hadd. io_simpl_outer. rewrite Htitle. io_simpl_outer.
  repeat rewrite <- app_assoc. reflexivity.
Qed.

Lemma created_title (recipe_json payload recipe_id : json) (h : list event) :
  recipe_created repr world self recipe_json h payload recipe_id ->
  exists d title,
    recipe_json = JDict d /\ lookup (lit "title") d = Some title.
Proof.
  intros (Ht & _).
  apply transform_inv in Ht as (d & _ & steps & keywords & -> & _ & _ & _ & Hp).
  apply build_payload_inv in Hp as (name & Hname & _).
  eauto.
Qed.

End ImportCases.

(** X7.  A recipe without a preview image: where [previewImageUrlTemplate]
    is absent, empty or null, a created recipe is reported as imported
    and the target is asked nothing but the creation. *)
Theorem no_template_no_image_request (repr : json -> str)
    (exn_str : exn -> str) (world : World) (self : Importer)
    (d : list (str * json)) (payload recipe_id : json) (h : list event) :
  recipe_created repr world self (JDict d) h payload recipe_id ->
  truthy (get_or (lit "previewImageUrlTemplate") JNone d) = false ->
  exists title,
    lookup (lit "title") d = Some title /\
    import_recipe repr exn_str world self (JDict d) h
    = (h ++ [creation self payload; success_line repr title; Sleep 1],
       Ok tt).
Proof.
  intros Hc Hfalsy.
  destruct (created_title _ _ _ _ _ _ _ Hc) as (d' & title & Hd & Htitle).
  injection Hd as <-.
  exists title. split; [exact Htitle|].
  apply (import_after_creation repr exn_str world self (JDict d) payload
           recipe_id title h [] Hc).
  - unfold getitem. now rewrite Htitle.
  - unfold get_or in Hfalsy. io_simpl. cbn [get].
    rewrite Hfalsy. now rewrite app_nil_r.
Qed.

Lemma no_template_no_image_request_witness :
  exists title,
    recipe_created no_repr (demo_world 201) demo_importer soup []
      soup_payload (JInt 42) /\
    getitem soup (lit "title") = Ok title /\
    import_recipe no_repr exn_name (demo_world 201) demo_importer soup []
    = ([creation demo_importer soup_payload; success_line no_repr title;
        Sleep 1],
       Ok tt).
Proof.
  assert (recipe_created no_repr (demo_world 201) demo_importer soup []
            soup_payload (JInt 42)) as Hc.
  { split; [reflexivity|].
    exists (plain_response 201 (JDict [(lit "id", JInt 42)])),
      (JDict [(lit "id", JInt 42)]).
    repeat split. }
  destruct (no_template_no_image_request no_repr exn_name (demo_world 201)
              demo_importer _ soup_payload (JInt 42) [] Hc eq_refl)
    as (title & Htitle & Hrun).
  exists title. split; [exact Hc|]. split; [|exact Hrun].
  unfold soup, getitem. now rewrite Htitle.
Defined.

Ltac image_setup Hc Hlook Htitle :=
  io_simpl; cbn [get]; rewrite Hlook; cbn [truthy nonempty]; io_simpl;
  unfold getitem at 1; rewrite Hlook; io_simpl;
  cbn [py_replace]; io_simpl.

(** X8.  The image step at its best and the refused upload.  With a created
    recipe, a template and a download answered 200, the image is put to
    [/api/recipe/<id>/image/] under a [Token] header, with the bytes of
    the download and the image URL; an upload answered with another
    status than 200 costs one more log line and nothing else. *)
Theorem image_is_uploaded (repr : json -> str) (exn_str : exn -> str)
    (world : World) (self : Importer) (d : list (str * json))
    (payload recipe_id : json) (template : str)
    (image_response upload_response : response) (h : list event) :
  recipe_created repr world self (JDict d) h payload recipe_id ->
  lookup (lit "previewImageUrlTemplate") d = Some (JStr template) ->
  template <> [] ->
  requests_get world (h ++ [creation self payload]) (image_url_of template)
  = Ok image_response ->
  status_code image_response = 200%Z ->
  session_put world
    ((h ++ [creation self payload]) ++ [RequestsGet (image_url_of template)])
    (upload_url repr self recipe_id) (upload_headers repr self)
    (upload_files (image_url_of template) (content image_response))
  = Ok upload_response ->
  exists title,
    lookup (lit "title") d = Some title /\
    import_recipe repr exn_str world self (JDict d) h
    = (h ++ creation self payload
         :: [ RequestsGet (image_url_of template);
              SessionPut (upload_url repr self recipe_id)
                (upload_headers repr self)
                (upload_files (image_url_of template)
                   (content image_response)) ]
         ++ (if (status_code upload_response =? 200)%Z then []
             else [Print (lit "Error adding image for "
                            ++ py_str repr title)])
         ++ [success_line repr title; Sleep 1],
       Ok tt).
Proof.
  intros Hc Hlook Hne Hget Hok Hput.
  destruct (created_title _ _ _ _ _ _ _ Hc) as (d' & title & Hd & Htitle).
  injection Hd as <-.
  exists title. split; [exact Htitle|].
  assert (getitem (JDict d) (lit "title") = Ok title) as Hgt
    by (unfold getitem; now rewrite Htitle).
  destruct template as [|c template]; [contradiction|].
  apply (import_after_creation repr exn_str world self (JDict d) payload
           recipe_id title h
           ([ RequestsGet (image_url_of (c :: template));
              SessionPut (upload_url repr self recipe_id)
                (upload_headers repr self)
                (upload_files (image_url_of (c :: template))
                   (content image_response)) ]
            ++ (if (status_code upload_response =? 200)%Z then []
                else [Print (lit "Error adding image for "
                               ++ py_str repr title)]))
           Hc Hgt).
  unfold image_url_of, upload_url, upload_headers, upload_files in *.
  image_setup Hc Hlook Htitle.
  rewrite Hget. io_simpl. rewrite Hok. cbn [Z.eqb Pos.eqb]. io_simpl.
  rewrite Hput. io_simpl.
  destruct (status_code upload_response =? 200)%Z; cbn [negb]; io_simpl.
  - repeat rewrite <- app_assoc. reflexivity.
  - rewrite Hgt. io_simpl. repeat rewrite <- app_assoc. reflexivity.
Qed.

Lemma image_is_uploaded_witness :
  exists title,
    getitem stew (lit "title") = Ok title /\
    import_recipe no_repr exn_name
      (image_world (Ok jpeg) (Ok (plain_response 500 JNone)))
      demo_importer stew []
    = ([ creation demo_importer stew_payload;
         RequestsGet stew_image_url;
         SessionPut (lit "https://tandoor.example/api/recipe/42/image/")
           [(lit "Authorization", lit "Token s3cret")]
           [ (lit "image",
               FilePart (lit "image.jpg") [255; 216; 255]%N
                 (lit "image/jpeg"));
             (lit "image_url", FieldPart stew_image_url) ];
         Print (lit "Error adding image for " ++ py_str no_repr title);
         success_line no_repr title;
         Sleep 1 ],
       Ok tt).
Proof.
  destruct (image_is_uploaded no_repr exn_name
              (image_world (Ok jpeg) (Ok (plain_response 500 JNone)))
              demo_importer
              (match stew with JDict d => d | _ => [] end)
              stew_payload (JInt 42)
              (lit "https://img.example/<format>/stew.jpg")
              jpeg (plain_response 500 JNone) [])
    as (title & Htitle & Hrun).
  - apply stew_created. reflexivity.
  - reflexivity.
  - discriminate.
  - reflexivity.
  - reflexivity.
  - reflexivity.
  - exists title. split; [|exact Hrun].
    vm_compute in Htitle. injection Htitle as <-. reflexivity.
Defined.

(** X9.  An exception of the download or of the upload stays inside the
    image step: it is logged with the title under "Error during image
    upload", and the recipe is reported as imported all the same. *)
Theorem image_exception_is_logged (repr : json -> str)
    (exn_str : exn -> str) (world : World) (self : Importer)
    (d : list (str * json)) (payload recipe_id : json) (template : str)
    (h : list event) :
  recipe_created repr world self (JDict d) h payload recipe_id ->
  lookup (lit "previewImageUrlTemplate") d = Some (JStr template) ->
  template <> [] ->
  exists title,
    lookup (lit "title") d = Some title /\
    (forall e,
       requests_get world (h ++ [creation self payload])
         (image_url_of template) = Raise e ->
       import_recipe repr exn_str world self (JDict d) h
       = (h ++ [ creation self payload;
                 RequestsGet (image_url_of template);
                 image_error repr exn_str title e;
                 success_line repr title;
                 Sleep 1 ],
          Ok tt)) /\
    (forall image_response e,
       requests_get world (h ++ [creation self payload])
         (image_url_of template) = Ok image_response ->
       status_code image_response = 200%Z ->
       session_put world
         ((h ++ [creation self payload])
          ++ [RequestsGet (image_url_of template)])
         (upload_url repr self recipe_id) (upload_headers repr self)
         (upload_files (image_url_of template) (content image_response))
       = Raise e ->
       import_recipe repr exn_str world self (JDict d) h
       = (h ++ [ creation self payload;
                 RequestsGet (image_url_of template);
                 SessionPut (upload_url repr self recipe_id)
                   (upload_headers repr self)
                   (upload_files (image_url_of template)
                      (content image_response));
                 image_error repr exn_str title e;
                 success_line repr title;
                 Sleep 1 ],
          Ok tt)).
Proof.
  intros Hc Hlook Hne.
  destruct (created_title _ _ _ _ _ _ _ Hc) as (d' & title & Hd & Htitle).
  injection Hd as <-.
  exists title. split; [exact Htitle|].
  assert (getitem (JDict d) (lit "title") = Ok title) as Hgt
    by (unfold getitem; now rewrite Htitle).
  destruct template as [|c template]; [contradiction|].
  split.
  - intros e Hget.
    apply (import_after_creation repr exn_str world self (JDict d) payload
             recipe_id title h
             [RequestsGet (image_url_of (c :: template));
              image_error repr exn_str title e] Hc Hgt).
    unfold image_url_of, image_error in *.
    image_setup Hc Hlook Htitle.
    rewrite Hget. io_simpl. rewrite Hgt. io_simpl.
    repeat rewrite <- app_assoc. reflexivity.
  - intros image_response e Hget Hok Hput.
    apply (import_after_creation repr exn_str world self (JDict d) payload
             recipe_id title h
             [RequestsGet (image_url_of (c :: template));
              SessionPut (upload_url repr self recipe_id)
                (upload_headers repr self)
                (upload_files (image_url_of (c :: template))
                   (content image_response));
              image_error repr exn_str title e] Hc Hgt).
    unfold image_url_of, image_error, upload_url, upload_headers,
      upload_files in *.
    image_setup Hc Hlook Htitle.
    rewrite Hget. io_simpl. rewrite Hok. cbn [Z.eqb Pos.eqb]. io_simpl.
    rewrite Hput. io_simpl. rewrite Hgt. io_simpl.
    repeat rewrite <- app_assoc. reflexivity.
Qed.

Lemma image_exception_is_logged_witness :
  exists title,
    getitem stew (lit "title") = Ok title /\
    import_recipe no_repr exn_name (image_world (Raise refused) (Raise refused))
      demo_importer stew []
    = ([ creation demo_importer stew_payload;
         RequestsGet stew_image_url;
         image_error no_repr exn_name title refused;
         success_line no_repr title;
         Sleep 1 ],
       Ok tt) /\
    import_recipe no_repr exn_name (image_world (Ok jpeg) (Raise refused))
      demo_importer stew []
    = ([ creation demo_importer stew_payload;
         RequestsGet stew_image_url;
         SessionPut (upload_url no_repr demo_importer (JInt 42))
           (upload_headers no_repr demo_importer)
           (upload_files stew_image_url (content jpeg));
         image_error no_repr exn_name title refused;
         success_line no_repr title;
         Sleep 1 ],
       Ok tt).
Proof.
  destruct (image_exception_is_logged no_repr exn_name
              (image_world (Raise refused) (Raise refused)) demo_importer
              (match stew with JDict d => d | _ => [] end)
              stew_payload (JInt 42)
              (lit "https://img.example/<format>/stew.jpg") [])
    as (title & Htitle & Hdown & _);
    [apply stew_created; reflexivity | reflexivity | discriminate |].
  destruct (image_exception_is_logged no_repr exn_name
              (image_world (Ok jpeg) (Raise refused)) demo_importer
              (match stew with JDict d => d | _ => [] end)
              stew_payload (JInt 42)
              (lit "https://img.example/<format>/stew.jpg") [])
    as (title' & Htitle' & _ & Hup);
    [apply stew_created; reflexivity | reflexivity | discriminate |].
  assert (title' = title) as -> by congruence.
  exists title.
  split; [vm_compute in Htitle; injection Htitle as <-; reflexivity|].
  split.
  - apply (Hdown refused). reflexivity.
  - apply (Hup jpeg refused); reflexivity.
Defined.

(** X10.  The template is not checked to be a string.  A template that is
    truthy but no string (a number, a list) has no [replace]: nothing is
    downloaded, the [AttributeError] is logged by the image step, and
    the recipe is reported as imported. *)
Theorem template_must_be_a_string (repr : json -> str)
    (exn_str : exn -> str) (world : World) (self : Importer)
    (d : list (str * json)) (payload recipe_id template : json)
    (h : list event) :
  recipe_created repr world self (JDict d) h payload recipe_id ->
  lookup (lit "previewImageUrlTemplate") d = Some template ->
  truthy template = true ->
  (forall s, template <> JStr s) ->
  exists title,
    lookup (lit "title") d = Some title /\
    import_recipe repr exn_str world self (JDict d) h
    = (h ++ [ creation self payload;
              image_error repr exn_str title
                (AttributeError (lit "replace"));
              success_line repr title;
              Sleep 1 ],
       Ok tt).
Proof.
  intros Hc Hlook Htruthy Hns.
  destruct (created_title _ _ _ _ _ _ _ Hc) as (d' & title & Hd & Htitle).
  injection Hd as <-.
  exists title. split; [exact Htitle|].
  assert (getitem (JDict d) (lit "title") = Ok title) as Hgt
    by (unfold getitem; now rewrite Htitle).
  apply (import_after_creation repr exn_str world self (JDict d) payload
           recipe_id title h
           [image_error repr exn_str title (AttributeError (lit "replace"))]
           Hc Hgt).
  unfold image_error.
  io_simpl. cbn [get]. rewrite Hlook, Htruthy. io_simpl.
  unfold getitem at 1. rewrite Hlook. io_simpl.
  destruct template as [| | | |s| |]; try (now destruct (Hns s));
    cbn [py_replace]; io_simpl; rewrite Hgt; io_simpl;
    repeat rewrite <- app_assoc; reflexivity.
Qed.

Lemma template_must_be_a_string_witness :
  import_recipe no_repr exn_name (demo_world 201) demo_importer numbered []
  = ([ creation demo_importer numbered_payload;
       image_error no_repr exn_name (JStr (lit "Soup"))
         (AttributeError (lit "replace"));
       success_line no_repr (JStr (lit "Soup"));
       Sleep 1 ],
     Ok tt).
Proof.
  destruct (template_must_be_a_string no_repr exn_name (demo_world 201)
              demo_importer
              (match numbered with JDict d => d | _ => [] end)
              numbered_payload (JInt 42) (JInt 7) [])
    as (title & Htitle & Hrun).
  - split; [reflexivity|].
    exists (plain_response 201 (JDict [(lit "id", JInt 42)])),
      (JDict [(lit "id", JInt 42)]).
    repeat split.
  - reflexivity.
  - reflexivity.
  - discriminate.
  - vm_compute in Htitle. injection Htitle as <-. exact Hrun.
Defined.

(** X11.  A recipe the transform refuses is never sent: the routine logs the
    exception with the title, or with ["unknown"], and asks the target
    nothing. *)
Theorem refused_recipe_is_not_sent (repr : json -> str)
    (exn_str : exn -> str) (world : World) (self : Importer)
    (d : list (str * json)) (e : exn) (h : list event) :
  _transform_recipe repr (JDict d) = Raise e ->
  import_recipe repr exn_str world self (JDict d) h
  = (h ++ [import_error repr exn_str
             (get_or (lit "title") (JStr (lit "unknown")) d) e],
     Ok tt).
Proof.
  intros Ht. unfold import_error, get_or.
  io_simpl. rewrite Ht. io_simpl. reflexivity.
Qed.

Lemma refused_recipe_is_not_sent_witness :
  import_recipe no_repr exn_name (demo_world 201) demo_importer unitless []
  = ([import_error no_repr exn_name (JStr (lit "Toast"))
        (KeyError (lit "unit"))],
     Ok tt).
Proof.
  apply (refused_recipe_is_not_sent no_repr exn_name (demo_world 201)
           demo_importer
           (match unitless with JDict d => d | _ => [] end)
           (KeyError (lit "unit")) []).
  reflexivity.
Defined.

(** X12.  A creation that cannot be completed.  When the creation request
    raises, and when it is answered 201 but the body cannot be parsed or
    has no [id], the exception is logged with the title; there is no
    image step, no line of success and no pause.  In the second case the
    recipe exists on the target all the same. *)
Theorem creation_error_is_logged (repr : json -> str)
    (exn_str : exn -> str) (world : World) (self : Importer)
    (recipe_json payload : json) (h : list event) :
  _transform_recipe repr recipe_json = Ok payload ->
  exists title,
    getitem recipe_json (lit "title") = Ok title /\
    (forall e,
       session_post world h (creation_url self) (headers_ self) payload
       = Raise e ->
       import_recipe repr exn_str world self recipe_json h
       = (h ++ [creation self payload; import_error repr exn_str title e],
          Ok tt)) /\
    (forall resp e,
       session_post world h (creation_url self) (headers_ self) payload
       = Ok resp ->
       status_code resp = 201%Z ->
       json_body resp = Raise e \/
       (exists body,
          json_body resp = Ok body /\ getitem body (lit "id") = Raise e) ->
       import_recipe repr exn_str world self recipe_json h
       = (h ++ [creation self payload; import_error repr exn_str title e],
          Ok tt)).
Proof.
  intros Ht.
  destruct (transform_title _ _ _ Ht) as (d & title & -> & Htitle).
  exists title. split; [exact Htitle|].
  assert (get (JDict d) (lit "title") (JStr (lit "unknown")) = Ok title)
    as Hget.
  { revert Htitle. unfold getitem, get.
    destruct (lookup (lit "title") d); [congruence | discriminate]. }
  unfold creation, creation_url, import_error.
  split.
  - intros e Hp.
    io_simpl. rewrite Ht. io_simpl. rewrite Hp. io_simpl.
    rewrite Hget. io_simpl. rewrite <- app_assoc. reflexivity.
  - intros resp e Hp Hs Hbody.
    io_simpl. rewrite Ht. io_simpl. rewrite Hp. io_simpl.
    rewrite Hs. cbn [Z.eqb Pos.eqb negb]. io_simpl.
    destruct Hbody as [Hb | (body & Hb & Hid)].
    + rewrite Hb. io_simpl. rewrite Hget. io_simpl.
      rewrite <- app_assoc. reflexivity.
    + rewrite Hb. io_simpl. rewrite Hid. io_simpl. rewrite Hget. io_simpl.
      rewrite <- app_assoc. reflexivity.
Qed.

Lemma creation_error_is_logged_witness :
  import_recipe no_repr exn_name offline_world demo_importer stew []
  = ([ creation demo_importer stew_payload;
       import_error no_repr exn_name (JStr (lit "Stew")) refused ],
     Ok tt) /\
  import_recipe no_repr exn_name
    (fixed_world created (Ok (plain_response 201 (JDict []))) created created
       (Ok []))
    demo_importer stew []
  = ([ creation demo_importer stew_payload;
       import_error no_repr exn_name (JStr (lit "Stew"))
         (KeyError (lit "id")) ],
     Ok tt).
Proof.
  split.
  - destruct (creation_error_is_logged no_repr exn_name offline_world
                demo_importer stew stew_payload [] eq_refl)
      as (title & Htitle & Hraise & _).
    vm_compute in Htitle. injection Htitle as <-.
    apply (Hraise refused). reflexivity.
  - destruct (creation_error_is_logged no_repr exn_name
                (fixed_world created (Ok (plain_response 201 (JDict [])))
                   created created (Ok []))
                demo_importer stew stew_payload [] eq_refl)
      as (title & Htitle & _ & Hid).
    vm_compute in Htitle. injection Htitle as <-.
    apply (Hid (plain_response 201 (JDict [])) (KeyError (lit "id")));
      [reflexivity | reflexivity |].
    right. exists (JDict []). split; reflexivity.
Defined.

(** X13.  A document that is valid JSON but no object (a list, a string, a
    number) makes [import_recipe] raise: the transform has no [get] to
    call, and neither has the handler.  The loop of [main] catches the
    exception and logs it with the URL; the target is asked nothing. *)
Theorem non_object_document_is_logged (repr : json -> str)
    (exn_str : exn -> str) (world : World) (self : Importer)
    (recipe_json : json) (h : list event) :
  (forall d, recipe_json <> JDict d) ->
  import_recipe repr exn_str world self recipe_json h
  = (h, Raise (AttributeError (lit "get"))) /\
  (forall line response,
     requests_get world h (strip line) = Ok response ->
     json_body response = Ok recipe_json ->
     process_url repr exn_str world self line h
     = (h ++ [ RequestsGet (strip line);
               url_error exn_str (strip line) (AttributeError (lit "get")) ],
        Ok tt)).
Proof.
  intros Hnd.
  assert (forall h0, import_recipe repr exn_str world self recipe_json h0
                     = (h0, Raise (AttributeError (lit "get")))) as Himp.
  { intros h0.
    destruct recipe_json as [| | | | | |d]; try (now destruct (Hnd d));
      reflexivity. }
  split; [apply Himp|].
  intros line response Hget Hbody.
  unfold process_url, try_except, bind, call, lift, print, url_error.
  rewrite Hget, Hbody, Himp.
  rewrite <- app_assoc. reflexivity.
Qed.

Lemma non_object_document_is_logged_witness :
  import_recipe no_repr exn_name (demo_world 201) demo_importer
    (JList [soup]) []
  = ([], Raise (AttributeError (lit "get"))) /\
  process_url no_repr exn_name
    (fixed_world created created (Ok (plain_response 200 (JList [soup])))
       created (Ok []))
    demo_importer (soup_url ++ [10%N]) []
  = ([ RequestsGet soup_url;
       url_error exn_name soup_url (AttributeError (lit "get")) ],
     Ok tt).
Proof.
  split.
  - apply (non_object_document_is_logged no_repr exn_name (demo_world 201)
             demo_importer (JList [soup]) []).
    discriminate.
  - apply (proj2 (non_object_document_is_logged no_repr exn_name
                    (fixed_world created created
                       (Ok (plain_response 200 (JList [soup]))) created
                       (Ok []))
                    demo_importer (JList [soup]) []
                    ltac:(discriminate))
             (soup_url ++ [10%N]) (plain_response 200 (JList [soup])));
      reflexivity.
Defined.

Ltac trace_norm :=
  repeat rewrite <- app_assoc;
  try rewrite skipn_length_app; try rewrite skipn_all.

(** X14.  What one call of [import_recipe] can ask for: at most one creation,
    one download and one upload, no upload without a download and no
    download without a creation, at most one pause, and neither an
    authentication nor a read of the URL file. *)
Theorem import_asks_at_most_once (repr : json -> str) (exn_str : exn -> str)
    (world : World) (self : Importer) (recipe_json : json)
    (h : list event) :
  (count is_upload
     (added h (import_recipe repr exn_str world self recipe_json h))
   <= count is_download
        (added h (import_recipe repr exn_str world self recipe_json h)))%nat /\
  (count is_download
     (added h (import_recipe repr exn_str world self recipe_json h))
   <= count is_creation
        (added h (import_recipe repr exn_str world self recipe_json h)))%nat /\
  (count is_creation
     (added h (import_recipe repr exn_str world self recipe_json h))
   <= 1)%nat /\
  (count is_sleep
     (added h (import_recipe repr exn_str world self recipe_json h))
   <= 1)%nat /\
  count is_setup
    (added h (import_recipe repr exn_str world self recipe_json h))
  = 0%nat.
Proof.
  unfold added, count. io_simpl.
  repeat io_case.
  all: trace_norm.
  all: cbn [filter app List.length
              is_upload is_download is_creation is_sleep is_setup].
  all: repeat split; lia.
Qed.

(** X15.  The pause is taken after a success only: a [Sleep] among the events
    of a call means that the recipe was created, and then the trace is
    the creation, the image step, the line of success and the pause of
    one second. *)
Theorem pause_only_after_success (repr : json -> str) (exn_str : exn -> str)
    (world : World) (self : Importer) (recipe_json : json)
    (h : list event) :
  existsb is_sleep
    (added h (import_recipe repr exn_str world self recipe_json h)) = true ->
  exists payload recipe_id title image_events,
    recipe_created repr world self recipe_json h payload recipe_id /\
    getitem recipe_json (lit "title") = Ok title /\
    import_recipe repr exn_str world self recipe_json h
    = (h ++ creation self payload
         :: image_events ++ [success_line repr title; Sleep 1],
       Ok tt).
Proof.
  intros Hsleep.
  assert (exists payload recipe_id,
            recipe_created repr world self recipe_json h payload recipe_id)
    as (payload & recipe_id & Hc).
  { revert Hsleep. unfold added, recipe_created, creation_url. io_simpl.
    repeat io_case.
    all: trace_norm.
    all: cbn [existsb is_sleep app orb].
    all: try discriminate.
    all: intros _; status_eq; eauto 10. }
  destruct (created_title _ _ _ _ _ _ _ Hc) as (d & title & -> & Htitle).
  assert (getitem (JDict d) (lit "title") = Ok title) as Hgt
    by (unfold getitem; now rewrite Htitle).
  destruct (add_image_returns repr exn_str world self (JDict d) recipe_id
              title (h ++ [creation self payload]) Hgt) as (t & Hadd).
  exists payload, recipe_id, title, t.
  split; [exact Hc|]. split; [exact Hgt|].
  now apply import_after_creation with (recipe_id := recipe_id).
Qed.

Lemma pause_only_after_success_witness :
  existsb is_sleep
    (added [] (import_recipe no_repr exn_name (demo_world 201)
                 demo_importer soup [])) = true /\
  exists payload recipe_id title image_events,
    recipe_created no_repr (demo_world 201) demo_importer soup []
      payload recipe_id /\
    getitem soup (lit "title") = Ok title /\
    import_recipe no_repr exn_name (demo_world 201) demo_importer soup []
    = (creation demo_importer payload
         :: image_events ++ [success_line no_repr title; Sleep 1],
       Ok tt).
Proof.
  split; [reflexivity|].
  apply (pause_only_after_success no_repr exn_name (demo_world 201)
           demo_importer soup []).
  reflexivity.
Defined.

(** ** Authentication and the driver *)

(** X16.  A successful authentication.  On an answer 200 whose body holds a
    [token], the constructor makes one form-encoded request to
    [/api-token-auth/] and builds an importer that keeps the token as it
    came and sends it as [Bearer] with every creation. *)
Theorem authentication_builds_importer (repr : json -> str) (world : World)
    (username password base : str) (resp : response) (body token : json)
    (h : list event) :
  requests_post world h (auth_url base) (auth_data username password)
  = Ok resp ->
  status_code resp = 200%Z ->
  json_body resp = Ok body ->
  getitem body (lit "token") = Ok token ->
  init repr world username password base h
  = (h ++ [auth_request base username password],
     Ok (importer_of repr base token)).
Proof.
  intros Hp Hs Hb Ht.
  unfold init, _get_auth_token, bind, call, lift, ret,
    auth_request, auth_url, auth_data, importer_of in *.
  rewrite Hp, Hs. cbn [Z.eqb Pos.eqb]. rewrite Hb, Ht. reflexivity.
Qed.

Lemma authentication_builds_importer_witness :
  init no_repr (demo_world 201) configured_username configured_password
    configured_base []
  = ([auth_request configured_base configured_username configured_password],
     Ok {| base_url := configured_base;
           auth_token := JStr (lit "s3cret");
           headers_ :=
             [ (lit "Authorization", lit "Bearer s3cret");
               (lit "Content-Type", lit "application/json") ] |}).
Proof.
  apply (authentication_builds_importer no_repr (demo_world 201)
           configured_username configured_password configured_base
           (plain_response 200 (JDict [(lit "token", JStr (lit "s3cret"))]))
           (JDict [(lit "token", JStr (lit "s3cret"))])
           (JStr (lit "s3cret")) []);
    reflexivity.
Defined.

(** X17.  A refused authentication is fatal.  On an answer other than 200 the
    constructor raises an [Exception] whose message ends with the body
    of the answer, and [main] ends with that exception after the one
    request: the URL file is not read and no recipe is fetched. *)
Theorem authentication_failure_is_fatal (repr : json -> str)
    (exn_str : exn -> str) (world : World) (resp : response)
    (h : list event) :
  requests_post world h (auth_url configured_base)
    (auth_data configured_username configured_password)
  = Ok resp ->
  status_code resp <> 200%Z ->
  main repr exn_str world h
  = (h ++ [auth_request configured_base configured_username
             configured_password],
     Raise (OtherError (lit "Exception")
              (lit "Authentication failed: " ++ text resp))).
Proof.
  intros Hp Hs.
  unfold main, init, _get_auth_token, bind, call, lift, ret, raise,
    auth_request, auth_url, auth_data, configured_base,
    configured_username, configured_password in *.
  rewrite Hp.
  destruct (Z.eqb_spec (status_code resp) 200) as [|_]; [contradiction|].
  reflexivity.
Qed.

Lemma authentication_failure_is_fatal_witness :
  main no_repr exn_name
    (fixed_world (Ok (plain_response 401 JNone)) created created created
       (Ok [soup_url]))
    []
  = ([auth_request configured_base configured_username configured_password],
     Raise (OtherError (lit "Exception")
              (lit "Authentication failed: body"))).
Proof.
  apply (authentication_failure_is_fatal no_repr exn_name
           (fixed_world (Ok (plain_response 401 JNone)) created created
              created (Ok [soup_url]))
           (plain_response 401 JNone) []).
  - reflexivity.
  - discriminate.
Defined.

Lemma init_trace (repr : json -> str) (world : World)
    (username password base : str) (h : list event) :
  fst (init repr world username password base h)
  = h ++ [auth_request base username password].
Proof.
  unfold init, _get_auth_token, bind, call, lift, ret, raise, auth_request,
    auth_url, auth_data.
  destruct (requests_post world h _ _) as [resp|e]; [|reflexivity].
  destruct (status_code resp =? 200)%Z; [|reflexivity].
  destruct (json_body resp) as [body|e]; [|reflexivity].
  destruct (getitem body (lit "token")); reflexivity.
Qed.

(** X18.  [main] can end with an exception in two places only: in the
    authentication, and in reading the URL file.  In both nothing but
    these two calls has happened; once the loop is entered, [main]
    returns normally. *)
Theorem main_raises_in_setup_only (repr : json -> str)
    (exn_str : exn -> str) (world : World) (h h' : list event) (e : exn) :
  main repr exn_str world h = (h', Raise e) ->
  (h' = h ++ [auth_request configured_base configured_username
                configured_password] /\
   exists h1,
     init repr world configured_username configured_password
       configured_base h = (h1, Raise e)) \/
  (h' = h ++ [ auth_request configured_base configured_username
                 configured_password;
               ReadLines urls_file ] /\
   readlines world
     (h ++ [auth_request configured_base configured_username
              configured_password]) urls_file
   = Raise e).
Proof.
  pose proof (init_trace repr world configured_username configured_password
                configured_base h) as Htrace.
  unfold main. fold configured_username configured_password configured_base
    urls_file.
  unfold bind at 1.
  destruct (init repr world configured_username configured_password
              configured_base h) as [h1 [importer|e0]];
    cbn [fst] in Htrace; subst h1.
  - unfold bind, call.
    destruct (readlines world _ urls_file) as [lines|e0] eqn:Er.
    + destruct (loop_is_batch repr exn_str world importer lines
                  ((h ++ [auth_request configured_base configured_username
                            configured_password]) ++ [ReadLines urls_file]))
        as (h2 & Hloop & _).
      rewrite Hloop. discriminate.
    + intros H. injection H as <- <-.
      right. rewrite <- app_assoc. split; reflexivity.
  - intros H. injection H as <- <-.
    left. split; [reflexivity|]. eauto.
Qed.

Lemma main_raises_in_setup_only_witness :
  main no_repr exn_name
    (fixed_world
       (Ok (plain_response 200 (JDict [(lit "token", JStr (lit "s3cret"))])))
       created created created
       (Raise (OtherError (lit "FileNotFoundError") (lit "no such file"))))
    []
  = ([ auth_request configured_base configured_username configured_password;
       ReadLines urls_file ],
     Raise (OtherError (lit "FileNotFoundError") (lit "no such file"))) /\
  readlines
    (fixed_world
       (Ok (plain_response 200 (JDict [(lit "token", JStr (lit "s3cret"))])))
       created created created
       (Raise (OtherError (lit "FileNotFoundError") (lit "no such file"))))
    [auth_request configured_base configured_username configured_password]
    urls_file
  = Raise (OtherError (lit "FileNotFoundError") (lit "no such file")).
Proof.
  split; [reflexivity|].
  destruct (main_raises_in_setup_only no_repr exn_name
              (fixed_world
                 (Ok (plain_response 200
                        (JDict [(lit "token", JStr (lit "s3cret"))])))
                 created created created
                 (Raise (OtherError (lit "FileNotFoundError")
                           (lit "no such file"))))
              [] _ _ eq_refl)
    as [[_ (h1 & Hinit)] | [_ Hread]].
  - discriminate Hinit.
  - exact Hread.
Defined.

(** X19.  Each line of the URL file is requested without the whitespace and
    the line end around it. *)
Theorem url_is_requested_stripped (repr : json -> str)
    (exn_str : exn -> str) (world : World) (importer : Importer)
    (before url after : str) (h : list event) :
  blank before = true ->
  blank after = true ->
  clean url = true ->
  exists rest,
    process_url repr exn_str world importer (before ++ url ++ after) h
    = (h ++ RequestsGet url :: rest, Ok tt).
Proof.
  intros Hb Ha Hc.
  destruct (process_url_step repr exn_str world importer
              (before ++ url ++ after) h) as (h1 & Hrun & Hstep).
  rewrite Hrun.
  inversion Hstep; subst;
    rewrite (strip_padded before url after Hb Ha Hc);
    eexists; reflexivity.
Qed.

Lemma url_is_requested_stripped_witness :
  exists rest,
    process_url no_repr exn_name file_world demo_importer
      (lit " " ++ soup_url ++ [13; 10]%N) []
    = (RequestsGet soup_url :: rest, Ok tt).
Proof.
  apply (url_is_requested_stripped no_repr exn_name file_world demo_importer
           (lit " ") soup_url [13; 10]%N []);
    reflexivity.
Defined.

(** ** The image URL *)

Lemma strip_prefix_self (p r : str) : strip_prefix p (p ++ r) = Some r.
Proof.
  induction p as [|a p IH]; simpl; [reflexivity|].
  now rewrite N.eqb_refl.
Qed.

Lemma split_go_skip (sep x r cur : str) :
  split_go sep (List.length x) cur (x ++ r) = split_go sep 0 cur r.
Proof.
  induction x as [|c x IH]; simpl; [reflexivity | exact IH].
Qed.

Lemma split_go_free (a : char) (sep' s r cur : str) :
  free_of a s = true ->
  split_go (a :: sep') 0 cur (s ++ r)
  = split_go (a :: sep') 0 (rev s ++ cur) r.
Proof.
  revert cur. induction s as [|c s IH]; intros cur Hf; [reflexivity|].
  simpl in Hf. apply andb_true_iff in Hf as [Hc Hs].
  apply negb_true_iff in Hc.
  change ((c :: s) ++ r) with (c :: (s ++ r)).
  cbn [split_go strip_prefix]. rewrite Hc.
  rewrite (IH (c :: cur) Hs). simpl. now rewrite <- app_assoc.
Qed.

Lemma split_go_match (a : char) (sep' r cur : str) :
  split_go (a :: sep') 0 cur ((a :: sep') ++ r)
  = rev cur :: split_go (a :: sep') 0 [] r.
Proof.
  change ((a :: sep') ++ r) with (a :: (sep' ++ r)).
  cbn [split_go].
  change (a :: (sep' ++ r)) with ((a :: sep') ++ r).
  rewrite strip_prefix_self.
  cbn [List.length]. rewrite Nat.sub_succ, Nat.sub_0_r.
  now rewrite split_go_skip.
Qed.

Lemma replace_free (a : char) (old' new s : str) :
  free_of a s = true -> replace (a :: old') new s = s.
Proof.
  intros Hf. unfold replace, split.
  rewrite <- (app_nil_r s) at 1.
  rewrite (split_go_free a old' s [] [] Hf). simpl.
  now rewrite app_nil_r, rev_involutive.
Qed.

Lemma replace_once (a : char) (old' new before after : str) :
  free_of a before = true ->
  free_of a after = true ->
  replace (a :: old') new (before ++ (a :: old') ++ after)
  = before ++ new ++ after.
Proof.
  intros Hb Ha. unfold replace, split.
  rewrite (split_go_free a old' before _ [] Hb).
  rewrite split_go_match.
  rewrite <- (app_nil_r after) at 1.
  rewrite (split_go_free a old' after [] [] Ha). simpl.
  now rewrite !app_nil_r, !rev_involutive.
Qed.

(** X20.  The image URL of a template.  A template with one placeholder and
    no other [<] is requested with [crop-642x428] in the place of
    [<format>], and a template without any [<] is requested as it is. *)
Theorem image_url_fills_placeholder (before after : str) :
  free_of 60%N before = true ->
  free_of 60%N after = true ->
  image_url_of (before ++ lit "<format>" ++ after)
  = before ++ lit "crop-642x428" ++ after /\
  image_url_of before = before.
Proof.
  intros Hb Ha. unfold image_url_of. split.
  - exact (replace_once 60%N (lit "format>") (lit "crop-642x428")
             before after Hb Ha).
  - exact (replace_free 60%N (lit "format>") (lit "crop-642x428")
             before Hb).
Qed.

Lemma image_url_fills_placeholder_witness :
  image_url_of (lit "https://img.example/<format>/stew.jpg")
  = lit "https://img.example/crop-642x428/stew.jpg" /\
  image_url_of (lit "https://img.example/") = lit "https://img.example/".
Proof.
  apply (image_url_fills_placeholder (lit "https://img.example/")
           (lit "/stew.jpg"));
    reflexivity.
Defined.
